(** * feathers-stripe: the Stripe adapter services

    A shallow embedding of [lib/services/base.js] (the [StripeAdapter]
    class), and of the transfer, price and order services, followed by the
    properties of the specification that concern them.

    JavaScript values are a first-order datatype; numbers are IEEE 754
    binary64 values in the representation of [SpecFloat]; an object is the
    list of its own enumerable string-keyed properties in property order;
    a promise is represented by the state in which it settles. *)

From Stdlib Require Import List String Ascii Bool ZArith Lia SpecFloat DecimalString.
Import ListNotations.
Open Scope string_scope.
Open Scope bool_scope.

Set Warnings "-register-all".

(** ** JavaScript values *)

Module JS.

Definition number := spec_float.

Definition prec : Z := 53.
Definition emax : Z := 1024.

Definition NaN : number := S754_nan.
Definition Infinity : number := S754_infinity false.
Definition pos_zero : number := S754_zero false.
Definition neg_zero : number := S754_zero true.

(** [Number.MAX_VALUE], the largest finite binary64 value. *)
Definition MAX_VALUE : number := SFmax_float prec emax.

(** The number denoted by an integer literal. *)
Definition of_Z (z : Z) : number := binary_normalize prec emax z 0 false.

Definition is_nan (n : number) : bool :=
  match n with S754_nan => true | _ => false end.

Definition is_zero (n : number) : bool :=
  match n with S754_zero _ => true | _ => false end.

Inductive value : Type :=
| VUndefined
| VNull
| VBool (b : bool)
| VNum (n : number)
| VStr (s : string)
| VArr (items : list value)
| VObj (props : list (string * value)).

Definition object := list (string * value).

(** ToBoolean. *)
Definition truthy (v : value) : bool :=
  match v with
  | VUndefined | VNull => false
  | VBool b => b
  | VNum n => negb (is_zero n || is_nan n)
  | VStr s => negb (s =? "")
  | VArr _ | VObj _ => true
  end.

(** [a || b]. *)
Definition or_else (a b : value) : value := if truthy a then a else b.

Definition typeof (v : value) : string :=
  match v with
  | VUndefined => "undefined"
  | VNull => "object"
  | VBool _ => "boolean"
  | VNum _ => "number"
  | VStr _ => "string"
  | VArr _ | VObj _ => "object"
  end.

(** [v === false]. *)
Definition is_false (v : value) : bool :=
  match v with VBool false => true | _ => false end.

(** [v === s] for a string literal [s], as the [case] labels of a
    [switch] compare. *)
Definition is_string (v : value) (s : string) : bool :=
  match v with VStr t => t =? s | _ => false end.

Definition nullish (v : value) : bool :=
  match v with VUndefined | VNull => true | _ => false end.

(** *** Own properties *)

Fixpoint lookup (k : string) (o : object) : option value :=
  match o with
  | [] => None
  | (k', v) :: rest => if k' =? k then Some v else lookup k rest
  end.

Definition has_key (k : string) (o : object) : bool :=
  match lookup k o with Some _ => true | None => false end.

(** [o[k] = v]: an existing property keeps its place, a new one is added
    after the others. (The engine lists integer-like keys first; that
    reordering is not modelled, and no function below depends on the
    place of a property it has added.) *)
Fixpoint assign (k : string) (v : value) (o : object) : object :=
  match o with
  | [] => [(k, v)]
  | (k', v') :: rest =>
      if k' =? k then (k, v) :: rest else (k', v') :: assign k v rest
  end.

(** [delete o[k]]. *)
Definition delete (k : string) (o : object) : object :=
  filter (fun kv => negb (fst kv =? k)) o.

Definition keys (o : object) : list string := List.map fst o.

(** [v.k] for a value that is neither [undefined] nor [null], and a name
    [k] that no prototype defines: the own property, or [undefined]. *)
Definition get (v : value) (k : string) : value :=
  match v with
  | VObj o => match lookup k o with Some x => x | None => VUndefined end
  | _ => VUndefined
  end.

Definition index_key (i : nat) : string :=
  NilEmpty.string_of_uint (Nat.to_uint i).

Fixpoint indexed (i : nat) (l : list value) : object :=
  match l with
  | [] => []
  | x :: rest => (index_key i, x) :: indexed (S i) rest
  end.

Fixpoint chars (s : string) : list value :=
  match s with
  | EmptyString => []
  | String c rest => VStr (String c EmptyString) :: chars rest
  end.

(** The own enumerable string-keyed properties of [v], in order:
    what [Object.entries(v)] lists and [Object.assign] copies. *)
Definition entries (v : value) : object :=
  match v with
  | VObj o => o
  | VArr l => indexed 0 l
  | VStr s => indexed 0 (chars s)
  | _ => []
  end.

(** [Object.assign({}, v)]. *)
Definition Object_assign_empty (v : value) : object :=
  fold_left (fun target kv => assign (fst kv) (snd kv) target) (entries v) [].

(** *** Strings *)

(** [key.startsWith('$')]. *)
Definition startsWith_dollar (key : string) : bool := String.prefix "$" key.

(** [s.replace(c, '')] for a one-character pattern: the first occurrence
    of [c] is removed. *)
Fixpoint remove_first (c : ascii) (s : string) : string :=
  match s with
  | EmptyString => EmptyString
  | String a rest => if Ascii.eqb a c then rest else String a (remove_first c rest)
  end.

Definition dollar : ascii := "$"%char.

(** *** Numbers *)

(** ToNumber on the primitive values whose conversion needs no parsing.
    The conversion of strings, arrays and objects is not modelled:
    [None]. *)
Definition ToNumber (v : value) : option number :=
  match v with
  | VUndefined => Some NaN
  | VNull => Some pos_zero
  | VBool b => Some (if b then of_Z 1 else pos_zero)
  | VNum n => Some n
  | VStr _ | VArr _ | VObj _ => None
  end.

Fixpoint coerce_all (args : list value) : option (list number) :=
  match args with
  | [] => Some []
  | a :: rest =>
      match ToNumber a, coerce_all rest with
      | Some n, Some ns => Some (n :: ns)
      | _, _ => None
      end
  end.

(** One step of the loop of [Math.min]: [-0] is below [+0], otherwise the
    smaller of the two by [<]. *)
Definition min_step (lowest n : number) : number :=
  match n, lowest with
  | S754_zero true, S754_zero false => n
  | _, _ => if SFltb n lowest then n else lowest
  end.

(** [Math.min(...args)]: the arguments are coerced, any NaN gives NaN,
    and the lowest is computed from [+Infinity]. [None] when an argument
    is outside the domain of [ToNumber] above. *)
Definition Math_min (args : list value) : option number :=
  match coerce_all args with
  | None => None
  | Some ns =>
      Some (if existsb is_nan ns then NaN else fold_left min_step ns Infinity)
  end.

End JS.

(** ** Completions and promises *)

Module Effects.
Import JS.

(** The classes of [@feathersjs/errors] the services construct. *)
Inductive error_class : Type :=
| PaymentError
| BadRequest
| Unavailable
| NotAuthenticated
| TooManyRequests
| GeneralError
| MethodNotAllowed
| NotImplemented.

(** What a [throw] or a rejected promise carries. *)
Inductive thrown : Type :=
| Raw (v : value)
    (* a value that is not an error instance built here, such as the
       error object the SDK rejects with *)
| Feathers (c : error_class) (message data : thrown)
    (* [new errors.c(message, data)] *)
| TypeError
    (* raised by the engine: a property is read from undefined or null *)
| Error (message : string).
    (* [new Error(message)] *)

(** How the evaluation of a call ends. *)
Inductive completion (A : Type) : Type :=
| Returns (a : A)
| Throws (e : thrown).
Arguments Returns {A} a.
Arguments Throws {A} e.

(** A promise, represented by the state in which it settles, if it does. *)
Inductive promise (A : Type) : Type :=
| Fulfilled (a : A)
| Rejected (e : thrown)
| Pending.
Arguments Fulfilled {A} a.
Arguments Rejected {A} e.
Arguments Pending {A}.

(** [p.catch(onRejected)] for a handler that returns a promise (which the
    result follows) or throws (which rejects the result). *)
Definition catch {A : Type} (p : promise A)
    (onRejected : thrown -> completion (promise A)) : promise A :=
  match p with
  | Fulfilled a => Fulfilled a
  | Rejected e =>
      match onRejected e with
      | Returns q => q
      | Throws x => Rejected x
      end
  | Pending => Pending
  end.

(** [e.type]: an instance of a class of [@feathersjs/errors] carries the
    type ["FeathersError"]; the engine's and [Error]'s instances have
    none; reading it from [undefined] or [null] throws. *)
Definition type_of (e : thrown) : completion value :=
  match e with
  | Raw v => if nullish v then Throws TypeError else Returns (get v "type")
  | Feathers _ _ _ => Returns (VStr "FeathersError")
  | TypeError | Error _ => Returns VUndefined
  end.

(** *** Requests to the SDK *)

Record call : Type := Call {
  resource : string;
  method : string;
  args : list value
}.

(** The SDK and the remote service behind it: how the promise that a
    call returns settles, given the calls issued before it. *)
Definition SDK := list call -> call -> promise value.

(** Computations that issue requests: the calls issued so far are
    threaded through. *)
Definition M (A : Type) : Type := list call -> A * list call.

Definition ret {A : Type} (a : A) : M A := fun trace => (a, trace).

Definition bind {A B : Type} (m : M A) (k : A -> M B) : M B :=
  fun trace => let (a, trace') := m trace in k a trace'.

Definition request (sdk : SDK) (c : call) : M (promise value) :=
  fun trace => (sdk trace c, (trace ++ [c])%list).

(** The argument at position [i] of a call [f(...args)]. *)
Definition arg (i : nat) (args : list value) : value := nth i args VUndefined.

End Effects.

Declare Scope sdk_scope.
Delimit Scope sdk_scope with sdk.
Notation "x <- m ;; k" := (Effects.bind m (fun x => k))
  (at level 61, m at next level, right associativity) : sdk_scope.

(** ** The adapter base class ([StripeAdapter]) *)

Module StripeAdapter.
Import JS Effects.
Local Open Scope sdk_scope.

(** The client an instance holds: built by [Stripe(secretKey)], or the
    [stripe] option as it was given. *)
Inductive client : Type :=
| Stripe (secretKey : value)
| Given (stripe : value).

(** An internal method ([_find], [_update], ...) of a concrete service. *)
Definition internal : Type := list value -> M (completion (promise value)).

Record instance : Type := Instance {
  options : object;
  stripe : client;
  _find : option internal;
  _get : option internal;
  _create : option internal;
  _update : option internal;
  _patch : option internal;
  _remove : option internal
}.

(** The internal methods a subclass defines. *)
Record methods : Type := Methods {
  m_find : option internal;
  m_get : option internal;
  m_create : option internal;
  m_update : option internal;
  m_patch : option internal;
  m_remove : option internal
}.

Definition default_paginate : value :=
  VObj [("default", VNum (of_Z 10)); ("max", VNum (of_Z 100))].

(** [{ paginate: { default: 10, max: 100 }, ...options }]. *)
Definition spread_options (options : value) : object :=
  fold_left (fun target kv => assign (fst kv) (snd kv) target)
            (entries options) [("paginate", default_paginate)].

(** What [super(opts, ...rest)] stores: the constructor of [AdapterBase]
    ([@feathersjs/adapter-commons]) sets [this.options] to
    [{ id: 'id', events: [], paginate: false, multi: false, filters: {},
       operators: [], ...options }]. It issues no request. *)
Definition AdapterBase_options (options : object) : object :=
  fold_left (fun target kv => assign (fst kv) (snd kv) target) options
            [("id", VStr "id"); ("events", VArr []); ("paginate", VBool false);
             ("multi", VBool false); ("filters", VObj []); ("operators", VArr [])].

(** [constructor (options, ...rest)]. *)
Definition constructor (ms : methods) (options : value) : M (completion instance) :=
  let opts := spread_options options in
  if negb (truthy (get (VObj opts) "secretKey")) && negb (truthy (get (VObj opts) "stripe"))
  then ret (Throws (Error "Stripe service option `secretKey` or `stripe` needs to be provided"))
  else
    let stripe :=
      if truthy (get (VObj opts) "stripe")
      then Given (get (VObj opts) "stripe")
      else Stripe (get (VObj opts) "secretKey") in
    ret (Returns (Instance (AdapterBase_options opts) stripe
                           (m_find ms) (m_get ms) (m_create ms)
                           (m_update ms) (m_patch ms) (m_remove ms))).

(** [handleError (error)]. *)
Definition handleError (error : thrown) : completion (promise value) :=
  match type_of error with
  | Throws e => Throws e
  | Returns type =>
      let feathersError :=
        if truthy type then
          if is_string type "StripeCardError" then
            Feathers PaymentError error error
          else if is_string type "StripeInvalidRequestError"
                  || is_string type "StripeInvalidRequest" then
            Feathers BadRequest error error
          else if is_string type "StripeAPIError" then
            Feathers Unavailable error error
          else if is_string type "StripeConnectionError" then
            Feathers Unavailable error error
          else if is_string type "StripeAuthenticationError" then
            Feathers NotAuthenticated error error
          else if is_string type "StripeRateLimitError" then
            Feathers TooManyRequests error error
          else
            Feathers GeneralError (Raw (VStr "Unknown Payment Gateway Error")) error
        else error in
      Returns (Rejected feathersError)
  end.

(** [this._m(...args).catch(this.handleError)]. *)
Definition guarded (m : internal) (args : list value) : M (completion (promise value)) :=
  r <- m args ;;
  ret match r with
      | Returns p => Returns (catch p handleError)
      | Throws e => Throws e
      end.

Definition not_implemented (message : string) : thrown :=
  Feathers NotImplemented (Raw (VStr message)) (Raw VUndefined).

(** [$m (...args)] for the verbs with no fallback. *)
Definition dispatch (m : option internal) (message : string) (args : list value)
  : M (completion (promise value)) :=
  match m with
  | None => ret (Throws (not_implemented message))
  | Some f => guarded f args
  end.

Definition dollar_find (this : instance) := dispatch (_find this) "Find method not implemented".
Definition dollar_get (this : instance) := dispatch (_get this) "Get method not implemented".
Definition dollar_create (this : instance) := dispatch (_create this) "Create method not implemented".
Definition dollar_update (this : instance) := dispatch (_update this) "Update method not implemented".
Definition dollar_remove (this : instance) := dispatch (_remove this) "Remove method not implemented".

(** [$patch (...args)]. *)
Definition dollar_patch (this : instance) (args : list value)
  : M (completion (promise value)) :=
  match _patch this with
  | Some f => guarded f args
  | None =>
      match _update this with
      | Some f => guarded f args
      | None => ret (Throws (not_implemented "Patch method not implemented"))
      end
  end.

(** [isNaN(v)] for a value whose [typeof] is ["number"]; in [getLimit]
    the call stands behind that test. *)
Definition isNaN (v : value) : bool :=
  match v with VNum n => is_nan n | _ => false end.

(** [getLimit (limit, paramsPaginate)], with [this.options]. *)
Definition getLimit (this_options : object) (limit paramsPaginate : value)
  : option value :=
  if is_false paramsPaginate then Some limit
  else
    let paginate := get (VObj this_options) "paginate" in
    if truthy paginate
       && (truthy (get paginate "default") || truthy (get paginate "max"))
    then
      let base := or_else (get paginate "default") (VNum pos_zero) in
      let lower :=
        if (typeof limit =? "number") && negb (isNaN limit) then limit else base in
      let upper :=
        if typeof (get paginate "max") =? "number"
        then get paginate "max" else VNum MAX_VALUE in
      option_map VNum (Math_min [lower; upper])
    else Some limit.

(** The body of the [forEach] callback of [cleanQuery], with the
    recursive call as [clean]. *)
Definition clean_entry (clean : value -> value) (result : object)
    (entry : string * value) : object :=
  let (key, value) := entry in
  if startsWith_dollar key then
    assign (remove_first dollar key) (clean value) (delete key result)
  else
    assign key (clean value) result.

(** [cleanQuery (query)]. The keys of an object are distinct, so that the
    copy [Object.assign({}, query)] has the entries of [query]. *)
Fixpoint cleanQuery (query : value) : value :=
  match query with
  | VArr items => VArr (List.map cleanQuery items)
  | VObj props => VObj (fold_left (clean_entry cleanQuery) props props)
  | _ => query
  end.

(** [filterQuery (params)]. *)
Definition filterQuery (this_options : object) (params : object) : option value :=
  let query := Object_assign_empty (get (VObj params) "query") in
  let limit := or_else (get (VObj query) "$limit") (get (VObj query) "limit") in
  if truthy limit then
    match getLimit this_options limit (get (VObj params) "paginate") with
    | Some l => Some (cleanQuery (VObj (delete "$limit" (assign "limit" l query))))
    | None => None
    end
  else Some (cleanQuery (VObj query)).

(** [filterParams (params = {})]. *)
Definition filterParams (this_options : object) (params : option object)
  : option object :=
  let params := match params with Some p => p | None => [] end in
  match filterQuery this_options params with
  | Some query =>
      Some [("query", query);
            ("stripe", get (VObj params) "stripe");
            ("paginate", VBool (negb (is_false (get (VObj params) "paginate"))))]
  | None => None
  end.

(** What [autoPagingEach(callback)] does: it hands the items of every
    page to the callback, in order, and returns a promise that settles
    when the pages are exhausted or a request fails. *)
Record pager : Type := Pager {
  delivered : list value;
  finished : promise unit
}.

(** The object a list call of the SDK returns: a promise, with or without
    the page-iteration method. *)
Record stripeMethod : Type := StripeMethod {
  settles : promise value;
  autoPagingEach : option pager
}.

Definition method_not_allowed : thrown :=
  Feathers MethodNotAllowed
           (Raw (VStr "Cannot use paginate: false on this method")) (Raw VUndefined).

(** [async handlePaginate ({ paginate }, stripeMethod)]: the promise the
    call returns. *)
Definition handlePaginate (paginate : value) (sm : stripeMethod) : promise value :=
  if truthy paginate then settles sm
  else
    match autoPagingEach sm with
    | Some each =>
        let results :=
          fold_left (fun results result => (results ++ [result])%list)
                    (delivered each) [] in
        match finished each with
        | Fulfilled _ => Fulfilled (VArr results)
        | Rejected e => Rejected e
        | Pending => Pending
        end
    | None => Rejected method_not_allowed
    end.

End StripeAdapter.

(** ** The base service ([BaseService]) *)

Module BaseService.
Import JS Effects StripeAdapter.

(** [this._m(...args)]: calling a method the instance does not have
    throws a [TypeError]. *)
Definition invoke (m : option internal) (args : list value)
  : M (completion (promise value)) :=
  match m with
  | Some f => f args
  | None => ret (Throws TypeError)
  end.

Definition find (this : instance) (params : value) :=
  invoke (_find this) [params].

Definition get (this : instance) (id params : value) :=
  invoke (_get this) [id; params].

Definition create (this : instance) (data params : value) :=
  invoke (_create this) [data; params].

Definition update (this : instance) (id data params : value) :=
  invoke (_update this) [id; data; params].

Definition patch (this : instance) (id data params : value) :=
  invoke (_patch this) [id; data; params].

Definition remove (this : instance) (id params : value) :=
  invoke (_remove this) [id; params].

End BaseService.

(** ** The resource services *)

(** [this.stripe.<resource>.<method>(...args).catch(errorHandler)], the
    shape of every request of the services below. [errorHandler] is the
    function [lib/error-handler] exports; the services are parametric
    in it. *)
Definition stripe_call (sdk : Effects.SDK)
    (errorHandler : Effects.thrown -> Effects.completion (Effects.promise JS.value))
    (resource method : string) (args : list JS.value)
  : Effects.M (Effects.completion (Effects.promise JS.value)) :=
  (p <- Effects.request sdk (Effects.Call resource method args) ;;
   Effects.ret (Effects.Returns (Effects.catch p errorHandler)))%sdk.

(** The constructor shared by the transfer and the order service:
    [constructor (options = {})]. *)
Module Service.
Import JS Effects.

Record instance : Type := Instance {
  stripe : StripeAdapter.client;
  paginate : value
}.

Definition constructor (options : value) : M (completion instance) :=
  let options := match options with VUndefined => VObj [] | _ => options end in
  if nullish options then ret (Throws TypeError)
  else if negb (truthy (get options "secretKey")) then
    ret (Throws (Error "Stripe `secretKey` needs to be provided"))
  else
    ret (Returns (Instance (StripeAdapter.Stripe (get options "secretKey")) (VObj []))).

End Service.

(** [lib/services/transfer.js] *)
Module Transfers.
Import JS Effects.
Section Transfers.
Variable sdk : SDK.
Variable errorHandler : thrown -> completion (promise value).

Definition get (id : value) :=
  stripe_call sdk errorHandler "transfers" "retrieve" [id].

Definition create (data : value) :=
  stripe_call sdk errorHandler "transfers" "create" [data].

Definition update (id data : value) :=
  stripe_call sdk errorHandler "transfers" "update" [id; data].

(** [patch (...args) { return this.update(...args); }] *)
Definition patch (args : list value) :=
  update (arg 0 args) (arg 1 args).

Definition remove (id : value) :=
  stripe_call sdk errorHandler "transfers" "createReversal" [id].
End Transfers.
End Transfers.

(** [lib/services/price.js]. The class extends what [./base] exports,
    and that is the function [init], not the class [BaseService]: the
    constructor of the class returns the object [init] returns, a
    [BaseService] instance whose prototype chain does not contain the
    prototype of the class. *)
Module Prices.
Import JS Effects.

(** [new Service(options)]: the instance [init(options)] builds, on
    which none of the internal methods is defined. *)
Definition constructor (options : value) : M (completion StripeAdapter.instance) :=
  StripeAdapter.constructor (StripeAdapter.Methods None None None None None None)
                            options.

(** The methods the class body declares. They are properties of the
    prototype of the class, which no object that [new Service] returns
    inherits from. *)
Module Prototype.
Section Prototype.
Variable sdk : SDK.
Variable errorHandler : thrown -> completion (promise value).

Definition _get (id : value) :=
  stripe_call sdk errorHandler "prices" "retrieve" [id].
Definition get (id : value) := _get id.

Definition _create (data : value) :=
  stripe_call sdk errorHandler "prices" "create" [data].
Definition create (data : value) := _create data.

Definition _update (id data : value) :=
  stripe_call sdk errorHandler "prices" "update" [id; data].
Definition update (id data : value) := _update id data.

(** [_patch (...args) { return this._update(...args); }] *)
Definition _patch (args : list value) :=
  _update (arg 0 args) (arg 1 args).
Definition patch (args : list value) := _patch args.
End Prototype.
End Prototype.

End Prices.

(** [lib/services/order.js] *)
Module Orders.
Import JS Effects.
Local Open Scope sdk_scope.
Section Orders.
Variable sdk : SDK.
Variable errorHandler : thrown -> completion (promise value).

Definition get (id : value) :=
  stripe_call sdk errorHandler "orders" "retrieve" [id].

Definition create (data : value) :=
  stripe_call sdk errorHandler "orders" "create" [data].

Definition update (id data : value) :=
  stripe_call sdk errorHandler "orders" "update" [id; data].

(** The [if (data.pay) { ... }] block of [patch]: the promise of the
    pay request, with its handler, is an expression statement; nothing
    keeps it. *)
Definition pay_block (id data : value) : M unit :=
  if truthy (JS.get data "pay") then
    let payload := delete "pay" (Object_assign_empty data) in
    _ <- stripe_call sdk errorHandler "orders" "pay" [id; VObj payload] ;;
    ret tt
  else ret tt.

(** [patch (id, data)]. *)
Definition patch (id data : value) : M (completion (promise value)) :=
  if nullish data then ret (Throws TypeError)
  else
    _ <- pay_block id data ;;
    update id data.
End Orders.
End Orders.

(** ** Notions used in the statements *)

Module Spec.
Import JS Effects.

(** The requested limit if it is a number, the default otherwise, in the
    words of the specification. *)
Definition requested_or_default (L : value) (D : number) : number :=
  match L with VNum l => l | _ => D end.

(** The lesser of two numbers. *)
Definition lesser (a b : number) : number := if SFltb b a then b else a.

(** The effective limit of the specification: [min(L or D, M)]. *)
Definition effective_limit (L : value) (D M : number) : number :=
  lesser (requested_or_default L D) M.

(** [m] is the minimum of [a] and [b] as [Math.min] understands it: NaN
    if one of them is NaN, and otherwise one of the two that is below
    both. *)
Definition is_min (m a b : number) : Prop :=
  if is_nan a || is_nan b then m = NaN
  else (m = a \/ m = b) /\ SFleb m a = true /\ SFleb m b = true.

(** The lower operand [getLimit] hands to [Math.min]: the requested limit
    when it is a number other than NaN, and otherwise the default, or 0
    when the default is 0 or NaN. *)
Definition lower_operand (L : value) (D : number) : number :=
  match L with
  | VNum l => if is_nan l then (if truthy (VNum D) then D else pos_zero) else l
  | _ => if truthy (VNum D) then D else pos_zero
  end.

(** The table of section 4.3: the category of a type discriminator. *)
Definition category (type : value) : error_class :=
  if is_string type "StripeCardError" then PaymentError
  else if is_string type "StripeInvalidRequestError" then BadRequest
  else if is_string type "StripeInvalidRequest" then BadRequest
  else if is_string type "StripeAPIError" then Unavailable
  else if is_string type "StripeConnectionError" then Unavailable
  else if is_string type "StripeAuthenticationError" then NotAuthenticated
  else if is_string type "StripeRateLimitError" then TooManyRequests
  else GeneralError.

(** The key under which [cleanQuery] forwards the entry of [key]. *)
Definition cleanKey (key : string) : string :=
  if startsWith_dollar key then remove_first dollar key else key.

(** No other key of [props] is forwarded under the key of [key], and no
    key that [cleanQuery] deletes is the forwarded key of [key]. *)
Definition unshared (props : object) (key : string) : Prop :=
  forall k, In k (keys props) -> k <> key ->
    cleanKey k <> cleanKey key /\ (startsWith_dollar k = true -> k <> cleanKey key).

Definition scalar (v : value) : bool :=
  match v with VArr _ | VObj _ => false | _ => true end.

Definition throws {A : Type} (c : completion A) : Prop :=
  exists e, c = Throws e.

End Spec.

(** ** Shapes of queries *)

Module Shape.
Import JS Spec.

Fixpoint distinct (l : list string) : bool :=
  match l with
  | [] => true
  | k :: rest => negb (existsb (String.eqb k) rest) && distinct rest
  end.

(** The keys of every object in [v] are distinct, as the keys of an
    object are. *)
Fixpoint well_formed (v : value) : bool :=
  match v with
  | VArr items => forallb well_formed items
  | VObj props =>
      distinct (List.map fst props)
      && forallb (fun kv => well_formed (snd kv)) props
  | _ => true
  end.

(** Every key of every object in [v] satisfies [P]. *)
Fixpoint all_keys (P : string -> bool) (v : value) : bool :=
  match v with
  | VArr items => forallb (all_keys P) items
  | VObj props => forallb (fun kv => P (fst kv) && all_keys P (snd kv)) props
  | _ => true
  end.

(** No key begins with [$]. *)
Definition dollar_free : value -> bool :=
  all_keys (fun k => negb (startsWith_dollar k)).

(** No key begins with [$$]: no forwarded key begins with [$]. *)
Definition single_dollar : value -> bool :=
  all_keys (fun k => negb (startsWith_dollar (cleanKey k))).

(** A number that is neither NaN nor infinite. *)
Definition finite (n : number) : bool :=
  match n with
  | S754_zero _ | S754_finite _ _ _ => true
  | S754_infinity _ | S754_nan => false
  end.

(** A number in the representation of binary64. *)
Definition binary64 (n : number) : bool := valid_binary prec emax n.

End Shape.

(** ** Properties *)

Import JS Effects Spec.

(** *** Numbers *)

Lemma SFleb_refl (a : number) : is_nan a = false -> SFleb a a = true.
Proof.
  destruct a as [s | s | | s m e]; simpl; try discriminate; intros _;
    unfold SFleb; simpl; try (destruct s; reflexivity).
  rewrite Z.compare_refl, Pos.compare_cont_refl. destruct s; reflexivity.
Qed.

Lemma SFltb_leb (a b : number) : SFltb a b = true -> SFleb a b = true.
Proof.
  unfold SFltb, SFleb. destruct (SFcompare a b) as [[ | | ] | ]; congruence.
Qed.

Lemma SFcompare_antisym (a b : number) (c : comparison) :
  SFcompare a b = Some c -> SFcompare b a = Some (CompOpp c).
Proof.
  destruct a as [s1 | s1 | | s1 m1 e1], b as [s2 | s2 | | s2 m2 e2]; simpl;
    try discriminate;
    try (intros [= <-]; try destruct s1; try destruct s2; reflexivity).
  intros [= <-]. f_equal.
  assert (Hm : Pos.compare_cont Eq m2 m1 = CompOpp (Pos.compare_cont Eq m1 m2))
    by (symmetry; apply (Pos.compare_cont_antisym m1 m2 Eq)).
  rewrite (Z.compare_antisym e1 e2), Hm.
  destruct s1, s2; simpl; try reflexivity;
    destruct (e1 ?= e2)%Z; simpl; try reflexivity;
    destruct (Pos.compare_cont Eq m1 m2); reflexivity.
Qed.

Lemma SFcompare_defined (a b : number) :
  is_nan a = false -> is_nan b = false -> exists c, SFcompare a b = Some c.
Proof.
  destruct a, b; simpl; try discriminate; intros _ _; eexists; reflexivity.
Qed.

Lemma SFltb_false_leb (a b : number) :
  is_nan a = false -> is_nan b = false -> SFltb a b = false -> SFleb b a = true.
Proof.
  intros Ha Hb. destruct (SFcompare_defined a b Ha Hb) as [c Hc].
  unfold SFltb, SFleb. rewrite (SFcompare_antisym _ _ _ Hc), Hc.
  destruct c; simpl; congruence.
Qed.

Lemma min_step_Infinity (a : number) :
  is_nan a = false -> min_step Infinity a = a.
Proof.
  destruct a as [s | s | | s m e]; simpl; try discriminate; intros _;
    destruct s; reflexivity.
Qed.

Lemma min_step_is_min (a b : number) :
  is_nan a = false -> is_nan b = false -> is_min (min_step a b) a b.
Proof.
  intros Ha Hb. unfold is_min. rewrite Ha, Hb. simpl.
  assert (Hgen : (if SFltb b a then b else a) = a \/ (if SFltb b a then b else a) = b).
  { destruct (SFltb b a); auto. }
  assert (Hle : SFleb (if SFltb b a then b else a) a = true
                /\ SFleb (if SFltb b a then b else a) b = true).
  { destruct (SFltb b a) eqn:Hlt.
    - split; [apply SFltb_leb; exact Hlt | apply SFleb_refl; exact Hb].
    - split; [apply SFleb_refl; exact Ha | apply SFltb_false_leb; assumption]. }
  unfold min_step.
  destruct b as [[ | ] | sb | | sb mb eb]; try discriminate;
    destruct a as [[ | ] | sa | | sa ma ea]; try discriminate;
    try (split; [exact Hgen | exact Hle]).
  split; [right; reflexivity | split; reflexivity].
Qed.

Lemma Math_min_two (a b : number) :
  exists m, Math_min [VNum a; VNum b] = Some m /\ is_min m a b.
Proof.
  unfold Math_min. simpl. rewrite orb_false_r. eexists. split; [reflexivity | ].
  destruct (is_nan a) eqn:Ha.
  - unfold is_min. rewrite Ha. reflexivity.
  - destruct (is_nan b) eqn:Hb.
    + unfold is_min. rewrite Ha, Hb. reflexivity.
    + simpl. rewrite (min_step_Infinity a Ha). apply min_step_is_min; assumption.
Qed.

(** *** Pagination clamping *)

Lemma getLimit_lower (L : value) (D : number) :
  (if (typeof L =? "number") && negb (StripeAdapter.isNaN L)
   then L else or_else (VNum D) (VNum pos_zero))
  = VNum (lower_operand L D).
Proof.
  unfold lower_operand, or_else.
  destruct L as [ | | b | l | s | items | props]; simpl; try reflexivity.
  - destruct (is_zero D || is_nan D); reflexivity.
  - destruct (is_zero D || is_nan D); reflexivity.
  - destruct (is_zero D || is_nan D); reflexivity.
  - destruct (is_nan l); simpl; [ | reflexivity].
    destruct (is_zero D || is_nan D); reflexivity.
  - destruct (is_zero D || is_nan D); reflexivity.
  - destruct (is_zero D || is_nan D); reflexivity.
  - destruct (is_zero D || is_nan D); reflexivity.
Qed.

(** C1 (as amended). With a pagination policy whose default [D] and
    maximum [M] are numbers, [getLimit] always returns: the requested
    limit [L] unchanged when [paramsPaginate] is [false], and also when
    [D] and [M] are both 0 or NaN; otherwise the minimum, in the sense of
    [Math.min], of [M] and the lower operand, which is [L] when [L] is a
    number other than NaN and else [D], or 0 when [D] is 0 or NaN. *)
Theorem getLimit_policy (options pg : object) (L p : value) (D M : number) :
  get (VObj options) "paginate" = VObj pg ->
  get (VObj pg) "default" = VNum D ->
  get (VObj pg) "max" = VNum M ->
  exists r, StripeAdapter.getLimit options L p = Some r /\
    (is_false p = true -> r = L) /\
    (is_false p = false -> truthy (VNum D) || truthy (VNum M) = false -> r = L) /\
    (is_false p = false -> truthy (VNum D) || truthy (VNum M) = true ->
       exists m, r = VNum m /\ is_min m (lower_operand L D) M).
Proof.
  intros Hpg HD HM. unfold StripeAdapter.getLimit.
  rewrite Hpg, HD, HM.
  destruct (is_false p) eqn:Hp.
  - exists L. repeat split; congruence.
  - change (truthy (VObj pg)) with true. rewrite andb_true_l.
    destruct (truthy (VNum D) || truthy (VNum M)) eqn:Hactive.
    + rewrite getLimit_lower. change (typeof (VNum M) =? "number") with true.
      cbv iota.
      destruct (Math_min_two (lower_operand L D) M) as [m [Hm Hmin]].
      rewrite Hm. exists (VNum m). repeat split; try congruence.
      intros _ _. exists m. split; [reflexivity | exact Hmin].
    + exists L. repeat split; congruence.
Qed.

Lemma getLimit_policy_witness :
  exists r,
    StripeAdapter.getLimit [("paginate", StripeAdapter.default_paginate)]
                           (VNum (of_Z 500)) VUndefined = Some r /\
    (is_false VUndefined = true -> r = VNum (of_Z 500)) /\
    (is_false VUndefined = false ->
     truthy (VNum (of_Z 10)) || truthy (VNum (of_Z 100)) = false ->
     r = VNum (of_Z 500)) /\
    (is_false VUndefined = false ->
     truthy (VNum (of_Z 10)) || truthy (VNum (of_Z 100)) = true ->
     exists m, r = VNum m /\
               is_min m (lower_operand (VNum (of_Z 500)) (of_Z 10)) (of_Z 100)).
Proof.
  apply (getLimit_policy [("paginate", StripeAdapter.default_paginate)]
           [("default", VNum (of_Z 10)); ("max", VNum (of_Z 100))]
           (VNum (of_Z 500)) VUndefined (of_Z 10) (of_Z 100));
    reflexivity.
Defined.

(** The examples of the specification: a requested limit of 500 under
    the policy of the constructor gives 100, a requested 25 stays, and
    no requested limit gives the default. *)
Example getLimit_examples :
  let options := [("paginate", StripeAdapter.default_paginate)] in
  StripeAdapter.getLimit options (VNum (of_Z 500)) VUndefined = Some (VNum (of_Z 100))
  /\ StripeAdapter.getLimit options (VNum (of_Z 25)) VUndefined = Some (VNum (of_Z 25))
  /\ StripeAdapter.getLimit options VUndefined VUndefined = Some (VNum (of_Z 10))
  /\ StripeAdapter.getLimit options (VNum (of_Z 500)) (VBool false) = Some (VNum (of_Z 500)).
Proof. repeat split; vm_compute; reflexivity. Qed.

(** C1 as it is stated fails for a policy whose default and maximum are
    both 0: the specification's [min(L or D, M)] is 0 for a requested
    limit of 5, and [getLimit] returns 5. *)
Lemma getLimit_zero_policy_counterexample :
  let options := [("paginate", VObj [("default", VNum (of_Z 0)); ("max", VNum (of_Z 0))])] in
  StripeAdapter.getLimit options (VNum (of_Z 5)) VUndefined = Some (VNum (of_Z 5))
  /\ effective_limit (VNum (of_Z 5)) (of_Z 0) (of_Z 0) = of_Z 0
  /\ StripeAdapter.getLimit options (VNum (of_Z 5)) VUndefined
     <> Some (VNum (effective_limit (VNum (of_Z 5)) (of_Z 0) (of_Z 0))).
Proof.
  repeat split; try (vm_compute; reflexivity).
  vm_compute. discriminate.
Qed.

(** *** Own properties *)

Section Properties.
Implicit Types (k : string) (v : value) (o : object).

Lemma lookup_assign_eq k v o : lookup k (assign k v o) = Some v.
Proof.
  induction o as [ | [k' v'] o IH]; simpl.
  - now rewrite String.eqb_refl.
  - destruct (k' =? k) eqn:E; simpl.
    + now rewrite String.eqb_refl.
    + now rewrite E.
Qed.

Lemma lookup_assign_neq k k' v o :
  k' <> k -> lookup k (assign k' v o) = lookup k o.
Proof.
  intros Hne. apply String.eqb_neq in Hne.
  induction o as [ | [k'' v''] o IH]; simpl.
  - now rewrite Hne.
  - destruct (k'' =? k') eqn:E; simpl.
    + apply String.eqb_eq in E. subst k''. now rewrite Hne.
    + now rewrite IH.
Qed.


Lemma lookup_delete_neq k k' o :
  k' <> k -> lookup k (delete k' o) = lookup k o.
Proof.
  intros Hne. induction o as [ | [k'' v''] o IH]; simpl; [reflexivity | ].
  destruct (k'' =? k') eqn:E; simpl.
  - apply String.eqb_eq in E. subst k''.
    apply String.eqb_neq in Hne. now rewrite Hne.
  - now rewrite IH.
Qed.

Lemma lookup_None k o : lookup k o = None <-> ~ In k (keys o).
Proof.
  induction o as [ | [k' v'] o IH]; simpl.
  - tauto.
  - destruct (k' =? k) eqn:E.
    + apply String.eqb_eq in E. split; [discriminate | tauto].
    + apply String.eqb_neq in E. tauto.
Qed.

Lemma lookup_In k v o : NoDup (keys o) -> In (k, v) o -> lookup k o = Some v.
Proof.
  induction o as [ | [k' v'] o IH]; simpl; [tauto | ].
  intros Hnd [Heq | Hin].
  - injection Heq as -> ->. now rewrite String.eqb_refl.
  - inversion Hnd as [ | ? ? Hnot Hnd']; subst.
    destruct (k' =? k) eqn:E.
    + apply String.eqb_eq in E. subst k'.
      exfalso. apply Hnot. change k with (fst (k, v)). now apply in_map.
    + now apply IH.
Qed.

Lemma lookup_Some_In k v o : lookup k o = Some v -> In (k, v) o.
Proof.
  induction o as [ | [k' v'] o IH]; simpl; [discriminate | ].
  destruct (k' =? k) eqn:E.
  - apply String.eqb_eq in E. subst k'. intros [= ->]. now left.
  - intros H. right. now apply IH.
Qed.

Lemma In_keys k v o : In (k, v) o -> In k (keys o).
Proof. intros H. change k with (fst (k, v)). now apply in_map. Qed.

Lemma keys_assign k k' v o :
  In k' (keys (assign k v o)) <-> k' = k \/ In k' (keys o).
Proof.
  induction o as [ | [k'' v''] o IH]; simpl.
  - intuition congruence.
  - destruct (k'' =? k) eqn:E; simpl.
    + apply String.eqb_eq in E. subst k''. intuition congruence.
    + rewrite IH. intuition congruence.
Qed.

Lemma keys_delete k k' o :
  In k' (keys (delete k o)) <-> k' <> k /\ In k' (keys o).
Proof.
  induction o as [ | [k'' v''] o IH]; simpl.
  - tauto.
  - destruct (k'' =? k) eqn:E; simpl.
    + apply String.eqb_eq in E. subst k''. rewrite IH. intuition congruence.
    + apply String.eqb_neq in E. rewrite IH. intuition congruence.
Qed.

Lemma NoDup_assign k v o : NoDup (keys o) -> NoDup (keys (assign k v o)).
Proof.
  induction o as [ | [k' v'] o IH]; simpl; intros Hnd.
  - constructor; [tauto | constructor].
  - inversion Hnd as [ | ? ? Hnot Hnd']; subst.
    destruct (k' =? k) eqn:E; simpl.
    + apply String.eqb_eq in E. subst k'. now constructor.
    + apply String.eqb_neq in E. constructor; [ | now apply IH].
      rewrite keys_assign. intuition congruence.
Qed.

Lemma NoDup_delete k o : NoDup (keys o) -> NoDup (keys (delete k o)).
Proof.
  induction o as [ | [k' v'] o IH]; simpl; intros Hnd; [constructor | ].
  inversion Hnd as [ | ? ? Hnot Hnd']; subst.
  destruct (k' =? k) eqn:E; simpl; [now apply IH | ].
  constructor; [ | now apply IH]. rewrite keys_delete. tauto.
Qed.

Lemma In_assign_other k k' v v' o :
  k' <> k -> In (k', v') o -> In (k', v') (assign k v o).
Proof.
  intros Hne. induction o as [ | [k'' v''] o IH]; simpl; [tauto | ].
  intros [Heq | Hin].
  - injection Heq as -> ->. apply String.eqb_neq in Hne.
    rewrite Hne. now left.
  - destruct (k'' =? k); [now right | right; now apply IH].
Qed.

Lemma In_delete_other k k' v' o :
  k' <> k -> In (k', v') o -> In (k', v') (delete k o).
Proof.
  intros Hne Hin. unfold delete. apply filter_In. split; [exact Hin | ].
  simpl. apply String.eqb_neq in Hne. now rewrite Hne.
Qed.

Lemma assign_fresh k v o : ~ In k (keys o) -> assign k v o = (o ++ [(k, v)])%list.
Proof.
  induction o as [ | [k' v'] o IH]; simpl; intros Hnot; [reflexivity | ].
  destruct (k' =? k) eqn:E.
  - apply String.eqb_eq in E. tauto.
  - rewrite IH; tauto.
Qed.

Lemma fold_assign_fresh (props acc : object) :
  NoDup (keys acc ++ keys props) ->
  fold_left (fun target kv => assign (fst kv) (snd kv) target) props acc
  = (acc ++ props)%list.
Proof.
  revert acc. induction props as [ | [k v] props IH]; simpl; intros acc Hnd.
  - now rewrite app_nil_r.
  - rewrite assign_fresh.
    + rewrite IH.
      * now rewrite <- app_assoc.
      * unfold keys. rewrite map_app. simpl. rewrite <- app_assoc. exact Hnd.
    + apply NoDup_remove_2 in Hnd. intros Hin. apply Hnd.
      apply in_or_app. now left.
Qed.

(** The copy of an object has its entries. *)
Lemma Object_assign_empty_obj (props : object) :
  NoDup (keys props) -> Object_assign_empty (VObj props) = props.
Proof.
  intros Hnd. unfold Object_assign_empty. simpl.
  now rewrite fold_assign_fresh.
Qed.

Lemma lookup_fold_assign k (props acc : object) :
  NoDup (keys props) ->
  lookup k (fold_left (fun target kv => assign (fst kv) (snd kv) target) props acc)
  = match lookup k props with Some x => Some x | None => lookup k acc end.
Proof.
  revert acc. induction props as [ | [k' v'] props IH]; simpl; intros acc Hnd;
    [reflexivity | ].
  inversion Hnd as [ | ? ? Hnot Hnd']; subst. rewrite (IH _ Hnd').
  destruct (k' =? k) eqn:E.
  - apply String.eqb_eq in E. subst k'.
    apply lookup_None in Hnot. rewrite Hnot. apply lookup_assign_eq.
  - apply String.eqb_neq in E. now rewrite lookup_assign_neq.
Qed.
End Properties.

(** *** Error remapping *)

(** C2 (as amended). For every error from which a type can be read (any
    error but [undefined] and [null]), [handleError] returns a rejected
    promise and does not throw; the seven known discriminators give the
    categories of the table; any other truthy discriminator gives the
    general error "Unknown Payment Gateway Error"; and an error whose
    discriminator is missing or falsy is the rejection reason itself,
    unchanged. *)
Theorem handleError_table (error : thrown) (type : value) :
  type_of error = Returns type ->
  (exists reason, StripeAdapter.handleError error = Returns (Rejected reason))
  /\ (type = VStr "StripeCardError" ->
      StripeAdapter.handleError error
      = Returns (Rejected (Feathers PaymentError error error)))
  /\ (type = VStr "StripeInvalidRequestError" ->
      StripeAdapter.handleError error
      = Returns (Rejected (Feathers BadRequest error error)))
  /\ (type = VStr "StripeInvalidRequest" ->
      StripeAdapter.handleError error
      = Returns (Rejected (Feathers BadRequest error error)))
  /\ (type = VStr "StripeAPIError" ->
      StripeAdapter.handleError error
      = Returns (Rejected (Feathers Unavailable error error)))
  /\ (type = VStr "StripeConnectionError" ->
      StripeAdapter.handleError error
      = Returns (Rejected (Feathers Unavailable error error)))
  /\ (type = VStr "StripeAuthenticationError" ->
      StripeAdapter.handleError error
      = Returns (Rejected (Feathers NotAuthenticated error error)))
  /\ (type = VStr "StripeRateLimitError" ->
      StripeAdapter.handleError error
      = Returns (Rejected (Feathers TooManyRequests error error)))
  /\ (truthy type = true -> category type = GeneralError ->
      StripeAdapter.handleError error
      = Returns (Rejected (Feathers GeneralError
                             (Raw (VStr "Unknown Payment Gateway Error")) error)))
  /\ (truthy type = false ->
      StripeAdapter.handleError error = Returns (Rejected error)).
Proof.
  intros Htype. unfold StripeAdapter.handleError. rewrite Htype.
  split; [eexists; reflexivity | ].
  repeat split; try (intros ->; reflexivity).
  intros Ht Hcat. rewrite Ht. unfold category in Hcat.
    destruct (is_string type "StripeCardError"); [discriminate | ].
    destruct (is_string type "StripeInvalidRequestError"); [discriminate | ].
    destruct (is_string type "StripeInvalidRequest"); [discriminate | ].
    destruct (is_string type "StripeAPIError"); [discriminate | ].
    destruct (is_string type "StripeConnectionError"); [discriminate | ].
    destruct (is_string type "StripeAuthenticationError"); [discriminate | ].
    destruct (is_string type "StripeRateLimitError"); [discriminate | ].
    reflexivity.
Qed.

Lemma handleError_table_witness :
  let error := Raw (VObj [("type", VStr "StripeRateLimitError")]) in
  type_of error = Returns (VStr "StripeRateLimitError")
  /\ StripeAdapter.handleError error
     = Returns (Rejected (Feathers TooManyRequests error error)).
Proof.
  split; [reflexivity | ].
  refine (proj1 (proj2 (proj2 (proj2 (proj2 (proj2 (proj2 (proj2
    (handleError_table (Raw (VObj [("type", VStr "StripeRateLimitError")]))
                       (VStr "StripeRateLimitError") _)))))))) _);
    reflexivity.
Defined.

(** C2 as it is stated fails for an error with no type discriminator:
    the rejection reason is the error itself, not the general
    unknown-gateway error. *)
Lemma handleError_missing_type_counterexample :
  let error := Raw (VObj [("message", VStr "socket hang up")]) in
  type_of error = Returns VUndefined
  /\ StripeAdapter.handleError error = Returns (Rejected error)
  /\ forall message data,
       StripeAdapter.handleError error
       <> Returns (Rejected (Feathers GeneralError message data)).
Proof.
  repeat split; try reflexivity. intros message data. vm_compute. discriminate.
Qed.

(** *** Pagination of list calls *)

Lemma fold_push (items acc : list value) :
  fold_left (fun results result => (results ++ [result])%list) items acc
  = (acc ++ items)%list.
Proof.
  revert acc. induction items as [ | x items IH]; intros acc; simpl.
  - now rewrite app_nil_r.
  - rewrite IH. now rewrite <- app_assoc.
Qed.

(** C4. With pagination enabled the promise of the SDK call is passed
    through. With pagination disabled, a call without [autoPagingEach]
    is rejected with a method-not-allowed error, and a call with it is
    fulfilled with all the items the iteration delivers, in order. *)
Theorem handlePaginate_cases (paginate : value) (sm : StripeAdapter.stripeMethod) :
  (truthy paginate = true ->
   StripeAdapter.handlePaginate paginate sm = StripeAdapter.settles sm)
  /\ (truthy paginate = false -> StripeAdapter.autoPagingEach sm = None ->
      StripeAdapter.handlePaginate paginate sm
      = Rejected (Feathers MethodNotAllowed
                    (Raw (VStr "Cannot use paginate: false on this method"))
                    (Raw VUndefined)))
  /\ (forall each done,
        truthy paginate = false ->
        StripeAdapter.autoPagingEach sm = Some each ->
        StripeAdapter.finished each = Fulfilled done ->
        StripeAdapter.handlePaginate paginate sm
        = Fulfilled (VArr (StripeAdapter.delivered each))).
Proof.
  unfold StripeAdapter.handlePaginate. split; [ | split].
  - intros ->. reflexivity.
  - intros -> ->. reflexivity.
  - intros each done -> -> ->. now rewrite fold_push.
Qed.

Lemma handlePaginate_cases_witness :
  let items := [VObj [("id", VStr "tr_1")]; VObj [("id", VStr "tr_2")]] in
  let listed := VObj [("data", VArr items)] in
  let plain := StripeAdapter.StripeMethod (Fulfilled listed) None in
  let paged := StripeAdapter.StripeMethod (Fulfilled listed)
                 (Some (StripeAdapter.Pager items (Fulfilled tt))) in
  StripeAdapter.handlePaginate (VBool true) plain = Fulfilled listed
  /\ StripeAdapter.handlePaginate (VBool false) plain
     = Rejected StripeAdapter.method_not_allowed
  /\ StripeAdapter.handlePaginate (VBool false) paged = Fulfilled (VArr items).
Proof.
  intros items listed plain paged. split; [ | split].
  - exact (proj1 (handlePaginate_cases (VBool true) plain) eq_refl).
  - exact (proj1 (proj2 (handlePaginate_cases (VBool false) plain))
             eq_refl eq_refl).
  - exact (proj2 (proj2 (handlePaginate_cases (VBool false) paged))
             (StripeAdapter.Pager items (Fulfilled tt)) tt
             eq_refl eq_refl eq_refl).
Defined.

(** *** Patch without a patch operation *)

(** The instance [new Service(options)] of the price service has none
    of the internal methods. *)
Lemma Prices_instance_bare (options : value) (trace trace' : list call)
    (this : StripeAdapter.instance) :
  Prices.constructor options trace = (Returns this, trace') ->
  StripeAdapter._find this = None /\ StripeAdapter._get this = None
  /\ StripeAdapter._create this = None /\ StripeAdapter._update this = None
  /\ StripeAdapter._patch this = None /\ StripeAdapter._remove this = None.
Proof.
  unfold Prices.constructor, StripeAdapter.constructor, ret.
  match goal with |- context [if ?c then _ else _] => destruct c end;
    [discriminate | ].
  intros [= <- _]. repeat split.
Qed.

(** C7. The transfer service does what the claim says: its patch is its
    update on the same arguments, one [transfers.update] request. So
    does [$patch] of the adapter: it runs [_patch], else [_update], and
    throws not-implemented itself only when the service has neither.
    The price service does not: on every instance that [new Service]
    returns, [patch] throws a [TypeError] and issues no request, as
    [update] does. *)
Theorem price_patch_never_reaches_update :
  (forall sdk errorHandler id data rest trace,
      Transfers.patch sdk errorHandler (id :: data :: rest) trace
      = Transfers.update sdk errorHandler id data trace
      /\ snd (Transfers.patch sdk errorHandler (id :: data :: rest) trace)
         = (trace ++ [Call "transfers" "update" [id; data]])%list)
  /\ (forall this args,
        StripeAdapter.dollar_patch this args
        = match StripeAdapter._patch this, StripeAdapter._update this with
          | Some f, _ => StripeAdapter.guarded f args
          | None, Some f => StripeAdapter.guarded f args
          | None, None =>
              ret (Throws (Feathers NotImplemented
                             (Raw (VStr "Patch method not implemented"))
                             (Raw VUndefined)))
          end)
  /\ (forall options trace,
        match fst (Prices.constructor options trace) with
        | Returns this =>
            forall id data params requests,
              BaseService.patch this id data params requests
              = (Throws TypeError, requests)
              /\ BaseService.update this id data params requests
                 = (Throws TypeError, requests)
        | Throws _ => True
        end).
Proof.
  split; [intros; split; reflexivity | ].
  split.
  { intros this args. unfold StripeAdapter.dollar_patch.
    destruct (StripeAdapter._patch this); [reflexivity | ].
    destruct (StripeAdapter._update this); reflexivity. }
  intros options trace.
  destruct (Prices.constructor options trace) as [[this | e] trace'] eqn:Hc;
    cbn [fst]; [ | exact I].
  destruct (Prices_instance_bare options trace trace' this Hc)
    as [_ [_ [_ [Hu [Hp _]]]]].
  intros id data params requests.
  unfold BaseService.patch, BaseService.update, BaseService.invoke.
  rewrite Hu, Hp. split; reflexivity.
Qed.

(** What the class body of the price service writes for patch: the
    [prices.update] request of its update. No instance reaches it. *)
Lemma price_prototype_patch (sdk : SDK)
    (errorHandler : thrown -> completion (promise value))
    (id data : value) (rest : list value) (trace : list call) :
  Prices.Prototype.patch sdk errorHandler (id :: data :: rest) trace
  = Prices.Prototype.update sdk errorHandler id data trace
  /\ snd (Prices.Prototype.patch sdk errorHandler (id :: data :: rest) trace)
     = (trace ++ [Call "prices" "update" [id; data]])%list.
Proof. split; reflexivity. Qed.

(** C7 at the failing input: [new Service({ secretKey: 'sk_test' })] of
    the price service builds an instance, and patching a price on it
    throws without a request. *)
Example price_patch_throws :
  exists this,
    Prices.constructor (VObj [("secretKey", VStr "sk_test")]) [] = (Returns this, [])
    /\ BaseService.patch this (VStr "price_1") (VObj [("active", VBool false)])
                          VUndefined []
       = (Throws TypeError, []).
Proof. eexists. split; reflexivity. Qed.

(** *** Removal of a transfer *)

(** C8. [remove(id)] on the transfer service issues exactly one request,
    [transfers.createReversal(id)], and returns its promise guarded by
    the error handler; no deletion is requested. *)
Theorem remove_issues_reversal (sdk : SDK)
    (errorHandler : thrown -> completion (promise value))
    (id : value) (trace : list call) :
  Transfers.remove sdk errorHandler id trace
  = (Returns (catch (sdk trace (Call "transfers" "createReversal" [id])) errorHandler),
     (trace ++ [Call "transfers" "createReversal" [id]])%list).
Proof. reflexivity. Qed.

(** *** Construction *)

Lemma spread_options_get (props : object) (k : string) :
  NoDup (keys props) -> k <> "paginate" ->
  get (VObj (StripeAdapter.spread_options (VObj props))) k = get (VObj props) k.
Proof.
  intros Hnd Hk. unfold StripeAdapter.spread_options, get. simpl entries.
  rewrite lookup_fold_assign by exact Hnd.
  destruct (lookup k props); [reflexivity | ].
  cbn [lookup]. apply not_eq_sym in Hk. apply String.eqb_neq in Hk. now rewrite Hk.
Qed.

(** C9. The constructor of the transfer and order services throws
    exactly when the options carry no truthy [secretKey]; the
    constructor of the adapter throws exactly when they carry neither a
    truthy [secretKey] nor a truthy [stripe], and so without options.
    Neither constructor issues a request. *)
Theorem constructor_throws_without_credential :
  (forall options trace,
      throws (fst (Service.constructor options trace))
      <-> truthy (get options "secretKey") = false)
  /\ (forall options trace, snd (Service.constructor options trace) = trace)
  /\ (forall ms props trace,
      NoDup (keys props) ->
      throws (fst (StripeAdapter.constructor ms (VObj props) trace))
      <-> truthy (get (VObj props) "secretKey") = false
          /\ truthy (get (VObj props) "stripe") = false)
  /\ (forall ms trace,
      throws (fst (StripeAdapter.constructor ms VUndefined trace)))
  /\ (forall ms options trace,
      snd (StripeAdapter.constructor ms options trace) = trace).
Proof.
  split; [ | split; [ | split; [ | split]]].
  - intros options trace. unfold Service.constructor, throws.
    destruct options as [ | | b | n | s | items | props]; simpl;
      try (split; [reflexivity | intros _; eexists; reflexivity]).
    destruct (truthy match lookup "secretKey" props with
                     | Some x => x | None => VUndefined end); simpl.
    + split; [intros [e He]; discriminate | discriminate].
    + split; [reflexivity | intros _; eexists; reflexivity].
  - intros options trace. unfold Service.constructor.
    destruct options as [ | | b | n | s | items | props]; simpl; try reflexivity.
    destruct (truthy match lookup "secretKey" props with
                     | Some x => x | None => VUndefined end); reflexivity.
  - intros ms props trace Hnd. unfold StripeAdapter.constructor, throws.
    rewrite !spread_options_get by (exact Hnd || discriminate).
    destruct (truthy (get (VObj props) "secretKey"));
      destruct (truthy (get (VObj props) "stripe")); simpl;
      (split; [intros [e He]; try discriminate; auto
              | intros [H1 H2]; try discriminate; eexists; reflexivity]).
  - intros ms trace. eexists. reflexivity.
  - intros ms options trace. unfold StripeAdapter.constructor.
    destruct (negb (truthy (get (VObj (StripeAdapter.spread_options options)) "secretKey"))
              && negb (truthy (get (VObj (StripeAdapter.spread_options options)) "stripe")));
      reflexivity.
Qed.

Lemma constructor_throws_without_credential_witness :
  let props := [("stripe", VObj [("transfers", VObj [])]); ("paginate", VBool false)] in
  NoDup (keys props)
  /\ (throws (fst (StripeAdapter.constructor
                     (StripeAdapter.Methods None None None None None None)
                     (VObj props) []))
      <-> truthy (get (VObj props) "secretKey") = false
          /\ truthy (get (VObj props) "stripe") = false).
Proof.
  intros props.
  assert (Hnd : NoDup (keys props)).
  { repeat constructor; simpl; intuition discriminate. }
  split; [exact Hnd | ].
  exact (proj1 (proj2 (proj2 constructor_throws_without_credential))
           (StripeAdapter.Methods None None None None None None) props [] Hnd).
Defined.

(** *** Patch of an order *)

Lemma patch_unfold (sdk : SDK) (errorHandler : thrown -> completion (promise value))
    (id data : value) (trace : list call) :
  nullish data = false ->
  Orders.patch sdk errorHandler id data trace
  = Orders.update sdk errorHandler id data
      (snd (Orders.pay_block sdk errorHandler id data trace)).
Proof.
  intros Hd. unfold Orders.patch, bind. rewrite Hd.
  destruct (Orders.pay_block sdk errorHandler id data trace); reflexivity.
Qed.

Lemma pay_block_trace (sdk : SDK) (errorHandler : thrown -> completion (promise value))
    (id data : value) (trace : list call) :
  snd (Orders.pay_block sdk errorHandler id data trace)
  = if truthy (get data "pay")
    then (trace ++ [Call "orders" "pay"
                      [id; VObj (delete "pay" (Object_assign_empty data))]])%list
    else trace.
Proof.
  unfold Orders.pay_block. destruct (truthy (get data "pay")); reflexivity.
Qed.




(** C6. The outcome of patch on an order is the outcome of its update
    request, guarded by the error handler; the promise of the pay
    request is not part of it: two SDKs that settle the update requests
    alike give patch the same outcome, however the pay request
    settles. *)
Theorem patch_outcome_is_update (sdk sdk' : SDK)
    (errorHandler : thrown -> completion (promise value))
    (id data : value) (trace : list call) :
  nullish data = false ->
  (forall tr c, method c = "update" -> sdk tr c = sdk' tr c) ->
  let issued := snd (Orders.pay_block sdk errorHandler id data trace) in
  fst (Orders.patch sdk errorHandler id data trace)
  = fst (Orders.update sdk errorHandler id data issued)
  /\ fst (Orders.patch sdk errorHandler id data trace)
     = Returns (catch (sdk issued (Call "orders" "update" [id; data])) errorHandler)
  /\ fst (Orders.patch sdk' errorHandler id data trace)
     = fst (Orders.patch sdk errorHandler id data trace).
Proof.
  intros Hd Hagree issued. subst issued.
  rewrite !patch_unfold by exact Hd. rewrite !pay_block_trace.
  split; [reflexivity | ]. split; [reflexivity | ].
  unfold Orders.update, stripe_call, bind, request, ret. simpl.
  now rewrite Hagree.
Qed.

Lemma patch_outcome_is_update_witness :
  let declined := Rejected (Raw (VObj [("type", VStr "StripeCardError")])) in
  let order := VObj [("id", VStr "or_1")] in
  let sdk : SDK := fun _ c => if method c =? "pay" then declined else Fulfilled order in
  let sdk' : SDK := fun _ _ => Fulfilled order in
  let data := VObj [("pay", VBool true); ("amount", VNum (of_Z 500))] in
  fst (Orders.patch sdk StripeAdapter.handleError (VStr "or_1") data [])
  = Returns (Fulfilled order)
  /\ fst (Orders.patch sdk' StripeAdapter.handleError (VStr "or_1") data [])
     = fst (Orders.patch sdk StripeAdapter.handleError (VStr "or_1") data []).
Proof.
  intros declined order sdk sdk' data. split; [reflexivity | ].
  refine (proj2 (proj2 (patch_outcome_is_update sdk sdk' StripeAdapter.handleError
                          (VStr "or_1") data [] eq_refl _))).
  intros tr c Hc. unfold sdk, sdk'. rewrite Hc. reflexivity.
Defined.

(** *** Query normalization *)

Lemma startsWith_dollar_inv (key : string) :
  startsWith_dollar key = true -> key = String dollar (remove_first dollar key).
Proof.
  unfold startsWith_dollar.
  destruct key as [ | c rest]; [discriminate | ].
  cbn [String.prefix].
  destruct (ascii_dec "$" c) as [<- | Hne]; [ | discriminate].
  intros _. reflexivity.
Qed.

Lemma cleanKey_inv (k t : string) :
  cleanKey k = t ->
  (startsWith_dollar k = false /\ k = t)
  \/ (startsWith_dollar k = true /\ k = String dollar t).
Proof.
  unfold cleanKey. destruct (startsWith_dollar k) eqn:E; intros <-.
  - right. split; [reflexivity | now apply startsWith_dollar_inv].
  - left. split; reflexivity.
Qed.

Lemma unshared_dollar (props : object) (key : string) :
  startsWith_dollar key = true ->
  ~ In (remove_first dollar key) (keys props) ->
  unshared props key.
Proof.
  intros Hkey Hfree k Hin Hne.
  assert (Hck : cleanKey key = remove_first dollar key)
    by (unfold cleanKey; now rewrite Hkey).
  rewrite Hck. split.
  - intros Heq. destruct (cleanKey_inv _ _ Heq) as [[_ ->] | [_ ->]].
    + now apply Hfree.
    + apply Hne. symmetry. now apply startsWith_dollar_inv.
  - intros _ ->. now apply Hfree.
Qed.

Lemma unshared_plain (props : object) (key : string) :
  startsWith_dollar key = false ->
  ~ In (String dollar key) (keys props) ->
  unshared props key.
Proof.
  intros Hkey Hfree k Hin Hne.
  assert (Hck : cleanKey key = key) by (unfold cleanKey; now rewrite Hkey).
  rewrite Hck. split.
  - intros Heq. destruct (cleanKey_inv _ _ Heq) as [[_ ->] | [_ ->]].
    + now apply Hne.
    + now apply Hfree.
  - intros _. exact Hne.
Qed.

Section Clean.
Variable clean : value -> value.

Lemma clean_entry_other (t : string) (result : object) (k : string) (v : value) :
  cleanKey k <> t -> (startsWith_dollar k = true -> k <> t) ->
  lookup t (StripeAdapter.clean_entry clean result (k, v)) = lookup t result.
Proof.
  unfold StripeAdapter.clean_entry, cleanKey.
  destruct (startsWith_dollar k); intros Hck Hk.
  - rewrite lookup_assign_neq by exact Hck.
    apply lookup_delete_neq. now apply Hk.
  - now apply lookup_assign_neq.
Qed.

Lemma clean_entry_self (result : object) (k : string) (v : value) :
  lookup (cleanKey k) (StripeAdapter.clean_entry clean result (k, v))
  = Some (clean v).
Proof.
  unfold StripeAdapter.clean_entry, cleanKey.
  destruct (startsWith_dollar k); apply lookup_assign_eq.
Qed.

(** The entries that are neither forwarded under [t] nor deleted at [t]
    leave the property [t] of the result as it is. *)
Lemma clean_fold_untouched (t : string) (es result : object) :
  (forall k, In k (keys es) ->
     cleanKey k <> t /\ (startsWith_dollar k = true -> k <> t)) ->
  lookup t (fold_left (StripeAdapter.clean_entry clean) es result) = lookup t result.
Proof.
  revert result. induction es as [ | [k v] es IH]; intros result Hes; simpl;
    [reflexivity | ].
  rewrite IH by (intros k' Hk'; apply Hes; now right).
  destruct (Hes k (or_introl eq_refl)) as [H1 H2].
  now apply clean_entry_other.
Qed.

(** An entry whose forwarded key no other entry shares is found in the
    result under that key, with its value cleaned. *)
Lemma clean_fold_lookup (key : string) (v : value) (es result : object) :
  NoDup (keys es) -> In (key, v) es ->
  (forall k, In k (keys es) -> k <> key ->
     cleanKey k <> cleanKey key /\ (startsWith_dollar k = true -> k <> cleanKey key)) ->
  lookup (cleanKey key) (fold_left (StripeAdapter.clean_entry clean) es result)
  = Some (clean v).
Proof.
  revert result. induction es as [ | [k' v'] es IH]; intros result Hnd Hin Hun;
    simpl; [destruct Hin | ].
  inversion Hnd as [ | ? ? Hnot Hnd']; subst.
  destruct Hin as [Heq | Hin].
  - injection Heq as -> ->.
    rewrite clean_fold_untouched; [apply clean_entry_self | ].
    intros k Hk. apply Hun; [now right | ].
    intros ->. now apply Hnot.
  - apply IH; [exact Hnd' | exact Hin | ].
    intros k Hk. apply Hun. now right.
Qed.
End Clean.

Lemma cleanQuery_scalar (query : value) :
  scalar query = true -> StripeAdapter.cleanQuery query = query.
Proof. destruct query; simpl; try reflexivity; discriminate. Qed.

Lemma falsy_scalar (v : value) : truthy v = false -> scalar v = true.
Proof. destruct v; simpl; try reflexivity; discriminate. Qed.

Lemma cleanQuery_entry (props : object) (key : string) (v : value) :
  NoDup (keys props) -> In (key, v) props -> unshared props key ->
  exists out,
    StripeAdapter.cleanQuery (VObj props) = VObj out
    /\ lookup (cleanKey key) out = Some (StripeAdapter.cleanQuery v).
Proof.
  intros Hnd Hin Hun. eexists. split; [reflexivity | ].
  now apply clean_fold_lookup.
Qed.

(** C3 (as amended). [cleanQuery] cleans a list element by element and
    returns a scalar unchanged. In a mapping, a key that begins with
    [$] is the [$] followed by its forwarded key, and the output has the
    forwarded key with the cleaned value, provided the mapping has no
    other key equal to that forwarded key; more generally, every entry
    whose forwarded key no other entry shares is in the output under
    that key with its value cleaned. *)
Theorem cleanQuery_normalizes :
  (forall items,
      StripeAdapter.cleanQuery (VArr items)
      = VArr (List.map StripeAdapter.cleanQuery items))
  /\ (forall props key v,
      NoDup (keys props) -> In (key, v) props ->
      startsWith_dollar key = true ->
      ~ In (remove_first dollar key) (keys props) ->
      key = String dollar (remove_first dollar key)
      /\ exists out,
           StripeAdapter.cleanQuery (VObj props) = VObj out
           /\ lookup (remove_first dollar key) out
              = Some (StripeAdapter.cleanQuery v))
  /\ (forall props key v,
      NoDup (keys props) -> In (key, v) props -> unshared props key ->
      exists out,
        StripeAdapter.cleanQuery (VObj props) = VObj out
        /\ lookup (cleanKey key) out = Some (StripeAdapter.cleanQuery v))
  /\ (forall query,
      scalar query = true -> StripeAdapter.cleanQuery query = query).
Proof.
  split; [reflexivity | ]. split; [ | split].
  - intros props key v Hnd Hin Hkey Hfree.
    split; [now apply startsWith_dollar_inv | ].
    destruct (cleanQuery_entry props key v Hnd Hin) as [out [Hout Hl]].
    + now apply unshared_dollar.
    + exists out. split; [exact Hout | ].
      unfold cleanKey in Hl. now rewrite Hkey in Hl.
  - exact cleanQuery_entry.
  - exact cleanQuery_scalar.
Qed.

Lemma cleanQuery_normalizes_witness :
  let inner := VArr [VObj [("$gt", VNum (of_Z 1))]] in
  let props := [("$or", inner); ("status", VStr "paid")] in
  NoDup (keys props) /\ In ("$or", inner) props
  /\ startsWith_dollar "$or" = true
  /\ ~ In (remove_first dollar "$or") (keys props)
  /\ "$or" = String dollar (remove_first dollar "$or")
  /\ exists out,
       StripeAdapter.cleanQuery (VObj props) = VObj out
       /\ lookup (remove_first dollar "$or") out
          = Some (StripeAdapter.cleanQuery inner).
Proof.
  intros inner props.
  assert (Hnd : NoDup (keys props)).
  { repeat constructor; simpl; intuition discriminate. }
  assert (Hin : In ("$or", inner) props) by (left; reflexivity).
  assert (Hfree : ~ In (remove_first dollar "$or") (keys props)).
  { simpl. intuition discriminate. }
  split; [exact Hnd | ]. split; [exact Hin | ]. split; [reflexivity | ].
  split; [exact Hfree | ].
  exact (proj1 (proj2 cleanQuery_normalizes) props "$or" inner Hnd Hin eq_refl Hfree).
Defined.

(** C3 as it is stated fails when the forwarded key of a [$]-key is
    itself a key of the mapping. In [{ $limit: 25, limit: 10 }] the
    output has [limit: 10], not the value of [$limit]; in
    [{ $$a: 1, $a: 2 }] the forwarded key [$a] of [$$a] is not in the
    output at all. *)
Lemma cleanQuery_shared_key_counterexample :
  let query := VObj [("$limit", VNum (of_Z 25)); ("limit", VNum (of_Z 10))] in
  let query' := VObj [("$$a", VNum (of_Z 1)); ("$a", VNum (of_Z 2))] in
  StripeAdapter.cleanQuery query = VObj [("limit", VNum (of_Z 10))]
  /\ get (StripeAdapter.cleanQuery query) (remove_first dollar "$limit")
     <> StripeAdapter.cleanQuery (VNum (of_Z 25))
  /\ StripeAdapter.cleanQuery query' = VObj [("a", VNum (of_Z 2))]
  /\ has_key (remove_first dollar "$$a") (entries (StripeAdapter.cleanQuery query'))
     = false.
Proof.
  split; [reflexivity | ]. split; [vm_compute; discriminate | ].
  split; reflexivity.
Qed.

(** *** The forwarded query *)

Lemma filterQuery_unfold (options params props : object) :
  get (VObj params) "query" = VObj props -> NoDup (keys props) ->
  StripeAdapter.filterQuery options params
  = let limit := or_else (get (VObj props) "$limit") (get (VObj props) "limit") in
    if truthy limit then
      match StripeAdapter.getLimit options limit (get (VObj params) "paginate") with
      | Some l =>
          Some (StripeAdapter.cleanQuery
                  (VObj (delete "$limit" (assign "limit" l props))))
      | None => None
      end
    else Some (StripeAdapter.cleanQuery (VObj props)).
Proof.
  intros Hq Hnd. unfold StripeAdapter.filterQuery.
  rewrite Hq, Object_assign_empty_obj by exact Hnd. reflexivity.
Qed.

Lemma get_absent (props : object) (k : string) :
  ~ In k (keys props) -> get (VObj props) k = VUndefined.
Proof. intros H. apply lookup_None in H. unfold get. now rewrite H. Qed.

Lemma limit_key_sources (k : string) :
  cleanKey k = "limit" -> k = "limit" \/ k = "$limit".
Proof.
  intros H. destruct (cleanKey_inv _ _ H) as [[_ ->] | [_ ->]]; [now left | now right].
Qed.

(** The query that [filterQuery] cleans when the limit is truthy. *)
Lemma limited_query (props : object) (l : value) :
  NoDup (keys props) ->
  let query := delete "$limit" (assign "limit" l props) in
  NoDup (keys query)
  /\ In ("limit", l) query
  /\ (forall k, In k (keys query) ->
        k <> "$limit" /\ (k = "limit" \/ In k (keys props)))
  /\ (forall k v, k <> "$limit" -> k <> "limit" -> In (k, v) props -> In (k, v) query).
Proof.
  intros Hnd query. subst query. repeat split.
  - now apply NoDup_delete, NoDup_assign.
  - apply lookup_Some_In. rewrite lookup_delete_neq by discriminate.
    apply lookup_assign_eq.
  - now apply keys_delete in H.
  - apply keys_delete in H. destruct H as [_ H]. now apply keys_assign in H.
  - intros k v H1 H2 Hin. apply In_delete_other; [exact H1 | ].
    now apply In_assign_other.
Qed.

(** C10 (as amended). [filterQuery] calls [getLimit] exactly when
    [$limit], or else [limit], of the query is truthy, and then forwards
    its result as [limit]. A query with neither key is forwarded with
    no [limit] entry: the default is not injected. A falsy [limit], such
    as 0, is forwarded as it is, without clamping. Every entry other
    than [$limit] and [limit] whose forwarded key no other entry shares
    is forwarded under that key, with its value cleaned. *)
Theorem filterQuery_limit (options params props : object) :
  get (VObj params) "query" = VObj props ->
  NoDup (keys props) ->
  let limit := or_else (get (VObj props) "$limit") (get (VObj props) "limit") in
  let paginate := get (VObj params) "paginate" in
  (~ In "$limit" (keys props) -> ~ In "limit" (keys props) ->
   exists out,
     StripeAdapter.filterQuery options params = Some (VObj out)
     /\ StripeAdapter.cleanQuery (VObj props) = VObj out
     /\ lookup "limit" out = None)
  /\ (truthy limit = false ->
      StripeAdapter.filterQuery options params
      = Some (StripeAdapter.cleanQuery (VObj props)))
  /\ (forall v,
      truthy limit = false ->
      lookup "limit" props = Some v -> ~ In "$limit" (keys props) ->
      exists out,
        StripeAdapter.filterQuery options params = Some (VObj out)
        /\ lookup "limit" out = Some v)
  /\ (forall l,
      truthy limit = true ->
      StripeAdapter.getLimit options limit paginate = Some l ->
      exists out,
        StripeAdapter.filterQuery options params = Some (VObj out)
        /\ lookup "limit" out = Some (StripeAdapter.cleanQuery l))
  /\ (forall key v,
      In (key, v) props -> key <> "$limit" -> key <> "limit" ->
      unshared props key ->
      (truthy limit = true -> StripeAdapter.getLimit options limit paginate <> None) ->
      exists out,
        StripeAdapter.filterQuery options params = Some (VObj out)
        /\ lookup (cleanKey key) out = Some (StripeAdapter.cleanQuery v)).
Proof.
  intros Hq Hnd limit paginate.
  rewrite (filterQuery_unfold options params props Hq Hnd).
  fold limit. fold paginate. cbv zeta.
  split; [ | split; [ | split; [ | split]]].
  - intros Hno1 Hno2.
    assert (Hl : limit = VUndefined).
    { unfold limit. now rewrite !get_absent. }
    rewrite Hl. cbn [truthy]. eexists. split; [reflexivity | ].
    split; [reflexivity | ].
    rewrite clean_fold_untouched; [now apply lookup_None | ].
    intros k Hk. split.
    + intros Hck. destruct (limit_key_sources k Hck) as [-> | ->]; tauto.
    + intros _ ->. tauto.
  - intros ->. reflexivity.
  - intros v Hf Hv Hno. rewrite Hf.
    assert (Hlv : limit = v).
    { unfold limit, or_else. rewrite (get_absent _ _ Hno). cbn [truthy].
      unfold get. now rewrite Hv. }
    rewrite Hlv in Hf.
    destruct (cleanQuery_entry props "limit" v Hnd (lookup_Some_In _ _ _ Hv))
      as [out [Hout Hl]].
    + apply unshared_plain; [reflexivity | exact Hno].
    + exists out. split; [now rewrite Hout | ].
      rewrite (cleanQuery_scalar v (falsy_scalar v Hf)) in Hl. exact Hl.
  - intros l Ht Hg. rewrite Ht, Hg.
    destruct (limited_query props l Hnd) as [Hnd' [Hin' [Hkeys' _]]].
    eexists. split; [reflexivity | ].
    apply (clean_fold_lookup StripeAdapter.cleanQuery "limit" l); try assumption.
    intros k Hk Hne. destruct (Hkeys' k Hk) as [Hk1 _]. split.
    + intros Hck. destruct (limit_key_sources k Hck); contradiction.
    + intros _. exact Hne.
  - intros key v Hin Hk1 Hk2 Hun Hret.
    destruct (truthy limit) eqn:Ht.
    + destruct (StripeAdapter.getLimit options limit paginate) as [l | ] eqn:Hg;
        [ | exfalso; now apply Hret].
      destruct (limited_query props l Hnd) as [Hnd' [_ [Hkeys' Hin']]].
      eexists. split; [reflexivity | ].
      apply (clean_fold_lookup StripeAdapter.cleanQuery key v);
        [exact Hnd' | now apply Hin' | ].
      intros k Hk Hne. destruct (Hkeys' k Hk) as [_ [-> | Hprops]].
      * split; [ | discriminate].
        intros Hck. symmetry in Hck.
        destruct (limit_key_sources key Hck); contradiction.
      * now apply Hun.
    + eexists. split; [reflexivity | ].
      now apply (clean_fold_lookup StripeAdapter.cleanQuery key v).
Qed.

Lemma filterQuery_limit_witness :
  let options := [("paginate", StripeAdapter.default_paginate)] in
  let props := [("$limit", VNum (of_Z 500)); ("status", VStr "paid")] in
  let params := [("query", VObj props)] in
  get (VObj params) "query" = VObj props
  /\ NoDup (keys props)
  /\ (exists out,
        StripeAdapter.filterQuery options params = Some (VObj out)
        /\ lookup "limit" out = Some (VNum (of_Z 100)))
  /\ (exists out,
        StripeAdapter.filterQuery options params = Some (VObj out)
        /\ lookup "status" out = Some (VStr "paid")).
Proof.
  intros options props params.
  assert (Hnd : NoDup (keys props)).
  { repeat constructor; simpl; intuition discriminate. }
  split; [reflexivity | ]. split; [exact Hnd | ].
  pose proof (filterQuery_limit options params props eq_refl Hnd) as H.
  cbv zeta in H. destruct H as [_ [_ [_ [Hlimit Hother]]]].
  split.
  - exact (Hlimit (VNum (of_Z 100)) eq_refl eq_refl).
  - apply (Hother "status" (VStr "paid")).
    + right; left; reflexivity.
    + discriminate.
    + discriminate.
    + apply unshared_plain; [reflexivity | ]. simpl. intuition discriminate.
    + intros _. vm_compute. discriminate.
Defined.

(** The example of the specification: [{ $limit: 25, status: "paid" }]
    under the policy of the constructor is forwarded as
    [{ status: "paid", limit: 25 }]. *)
Example filterQuery_example :
  StripeAdapter.filterQuery [("paginate", StripeAdapter.default_paginate)]
    [("query", VObj [("$limit", VNum (of_Z 25)); ("status", VStr "paid")])]
  = Some (VObj [("status", VStr "paid"); ("limit", VNum (of_Z 25))]).
Proof. vm_compute. reflexivity. Qed.

(** C10 as it is stated fails for a query with [limit: 0]: the
    forwarded query does contain a [limit] entry, the 0 of the query. *)
Lemma filterQuery_zero_limit_counterexample :
  let options := [("paginate", StripeAdapter.default_paginate)] in
  let params := [("query", VObj [("limit", VNum (of_Z 0)); ("status", VStr "paid")])] in
  StripeAdapter.filterQuery options params
  = Some (VObj [("limit", VNum (of_Z 0)); ("status", VStr "paid")])
  /\ ~ (exists out,
          StripeAdapter.filterQuery options params = Some (VObj out)
          /\ lookup "limit" out = None).
Proof.
  split; [vm_compute; reflexivity | ].
  intros [out [Hout Hl]]. vm_compute in Hout. injection Hout as <-.
  vm_compute in Hl. discriminate.
Qed.

(** ** Further properties of the adapter *)

Import Shape.

(** *** More on numbers *)

Lemma min_step_cases (a b : number) : min_step a b = a \/ min_step a b = b.
Proof.
  unfold min_step.
  destruct b as [[ | ] | sb | | sb mb eb]; destruct a as [[ | ] | sa | | sa ma ea];
    try (now right);
    match goal with |- context [if ?c then _ else _] => destruct c end; auto.
Qed.

Lemma min_step_self (a : number) : min_step a a = a.
Proof. destruct (min_step_cases a a); assumption. Qed.

Lemma min_step_idem (a b : number) : min_step (min_step a b) b = min_step a b.
Proof.
  destruct (min_step_cases a b) as [H | H].
  - rewrite H. exact H.
  - rewrite H. apply min_step_self.
Qed.

Lemma MAX_VALUE_eq : MAX_VALUE = S754_finite false 9007199254740991 971.
Proof. vm_compute. reflexivity. Qed.

Lemma digits2_pos_bound (m : positive) :
  (Z.pos m < 2 ^ Z.pos (digits2_pos m))%Z.
Proof.
  induction m as [m IH | m IH | ]; cbn [digits2_pos].
  - rewrite Pos2Z.inj_succ, Z.pow_succ_r by lia. lia.
  - rewrite Pos2Z.inj_succ, Z.pow_succ_r by lia. lia.
  - reflexivity.
Qed.

Lemma bounded_below_MAX (m : positive) (e : Z) :
  bounded prec emax m e = true ->
  (e < 971 \/ (e = 971 /\ Z.pos m <= 9007199254740991))%Z.
Proof.
  unfold bounded, canonical_mantissa, fexp, emin, prec, emax.
  intros H. apply andb_true_iff in H as [Hc He].
  apply Z.eqb_eq in Hc. apply Z.leb_le in He.
  destruct (Z.eq_dec e 971) as [-> | Hne]; [right | left; lia].
  split; [reflexivity | ].
  assert (Hd : (Z.pos (digits2_pos m) <= 53)%Z) by lia.
  pose proof (digits2_pos_bound m) as Hm.
  assert (Hp : (2 ^ Z.pos (digits2_pos m) <= 2 ^ 53)%Z)
    by (apply Z.pow_le_mono_r; lia).
  change (2 ^ 53)%Z with 9007199254740992%Z in Hp. lia.
Qed.

(** A finite binary64 number is not above [Number.MAX_VALUE]. *)
Lemma min_step_MAX_VALUE (l : number) :
  binary64 l = true -> finite l = true -> min_step l MAX_VALUE = l.
Proof.
  rewrite MAX_VALUE_eq. unfold binary64, valid_binary.
  destruct l as [s | s | | s m e]; try discriminate; intros Hv _.
  - destruct s; reflexivity.
  - unfold min_step, SFltb, SFcompare. destruct s; [reflexivity | ].
    destruct (bounded_below_MAX m e Hv) as [He | [-> Hm]].
    + apply Z.compare_gt_iff in He. now rewrite He.
    + rewrite Z.compare_refl.
      change (Pos.compare_cont Eq 9007199254740991 m)
        with (9007199254740991 ?= m)%positive.
      destruct (Pos.compare_spec 9007199254740991 m) as [_ | Hlt | _];
        try reflexivity.
      exfalso. lia.
Qed.

Lemma lower_operand_not_nan (L : value) (D : number) :
  is_nan (lower_operand L D) = false.
Proof.
  assert (HD : is_nan (if truthy (VNum D) then D else pos_zero) = false).
  { simpl. destruct D; reflexivity. }
  unfold lower_operand. destruct L; try exact HD.
  destruct (is_nan n) eqn:E; [exact HD | exact E].
Qed.

Lemma Math_min_pair (a b : number) :
  is_nan a = false ->
  Math_min [VNum a; VNum b] = Some (if is_nan b then NaN else min_step a b).
Proof.
  intros Ha. unfold Math_min. simpl. rewrite Ha, orb_false_r. simpl.
  now rewrite (min_step_Infinity a Ha).
Qed.

(** *** More on pagination clamping *)

Lemma getLimit_numeric_policy (options pg : object) (L p : value) (D M : number) :
  get (VObj options) "paginate" = VObj pg ->
  get (VObj pg) "default" = VNum D ->
  get (VObj pg) "max" = VNum M ->
  StripeAdapter.getLimit options L p
  = Some (if is_false p then L
          else if truthy (VNum D) || truthy (VNum M)
               then VNum (if is_nan M then NaN else min_step (lower_operand L D) M)
               else L).
Proof.
  intros Hpg HD HM. unfold StripeAdapter.getLimit. rewrite Hpg, HD, HM.
  destruct (is_false p); [reflexivity | ].
  change (truthy (VObj pg)) with true. rewrite andb_true_l.
  destruct (truthy (VNum D) || truthy (VNum M)); [ | reflexivity].
  rewrite getLimit_lower. change (typeof (VNum M) =? "number") with true.
  cbv iota. now rewrite Math_min_pair by apply lower_operand_not_nan.
Qed.

(** X1. Under a policy with a numeric default and maximum, [getLimit] is
    idempotent: applied to a limit it has returned, it returns that
    limit again. *)
Theorem getLimit_idempotent (options pg : object) (L p r : value) (D M : number) :
  get (VObj options) "paginate" = VObj pg ->
  get (VObj pg) "default" = VNum D ->
  get (VObj pg) "max" = VNum M ->
  StripeAdapter.getLimit options L p = Some r ->
  StripeAdapter.getLimit options r p = Some r.
Proof.
  intros Hpg HD HM.
  rewrite !(getLimit_numeric_policy options pg _ p D M Hpg HD HM).
  destruct (is_false p); [trivial | ].
  destruct (truthy (VNum D) || truthy (VNum M)); [ | trivial].
  intros [= <-]. f_equal. f_equal.
  destruct (is_nan M) eqn:HM'; [reflexivity | ].
  assert (Hm : is_nan (min_step (lower_operand L D) M) = false).
  { destruct (min_step_cases (lower_operand L D) M) as [-> | ->];
      [apply lower_operand_not_nan | exact HM']. }
  unfold lower_operand at 1. rewrite Hm. apply min_step_idem.
Qed.

Lemma getLimit_idempotent_witness :
  let options := [("paginate", StripeAdapter.default_paginate)] in
  StripeAdapter.getLimit options (VNum (of_Z 500)) VUndefined = Some (VNum (of_Z 100))
  /\ StripeAdapter.getLimit options (VNum (of_Z 100)) VUndefined
     = Some (VNum (of_Z 100)).
Proof.
  intros options. split; [reflexivity | ].
  exact (getLimit_idempotent options
           [("default", VNum (of_Z 10)); ("max", VNum (of_Z 100))]
           (VNum (of_Z 500)) VUndefined (VNum (of_Z 100)) (of_Z 10) (of_Z 100)
           eq_refl eq_refl eq_refl eq_refl).
Defined.

(** X2. When the pagination policy has no numeric maximum (no policy at
    all, a policy without [max], or a [max] that is not a number), a
    requested limit that is a finite binary64 number is returned
    unchanged: nothing clamps it. *)
Theorem getLimit_without_max (options : object) (l : number) (p : value) :
  typeof (get (get (VObj options) "paginate") "max") <> "number" ->
  binary64 l = true -> finite l = true ->
  StripeAdapter.getLimit options (VNum l) p = Some (VNum l).
Proof.
  intros Hmax Hv Hf. unfold StripeAdapter.getLimit.
  destruct (is_false p); [reflexivity | ].
  destruct (truthy (get (VObj options) "paginate")
            && (truthy (get (get (VObj options) "paginate") "default")
                || truthy (get (get (VObj options) "paginate") "max")));
    [ | reflexivity].
  apply String.eqb_neq in Hmax. rewrite Hmax.
  assert (Hn : is_nan l = false) by (destruct l; try reflexivity; discriminate).
  change (typeof (VNum l) =? "number") with true.
  unfold StripeAdapter.isNaN. rewrite Hn. cbn [andb negb].
  rewrite Math_min_pair by exact Hn.
  change (is_nan MAX_VALUE) with false. cbv iota. cbn [option_map].
  now rewrite min_step_MAX_VALUE.
Qed.

Lemma getLimit_without_max_witness :
  let options := [("paginate", VObj [("default", VNum (of_Z 10))])] in
  typeof (get (get (VObj options) "paginate") "max") <> "number"
  /\ StripeAdapter.getLimit options (VNum (of_Z 5000)) VUndefined
     = Some (VNum (of_Z 5000)).
Proof.
  intros options.
  assert (H : typeof (get (get (VObj options) "paginate") "max") <> "number")
    by (vm_compute; discriminate).
  split; [exact H | ].
  exact (getLimit_without_max options (of_Z 5000) VUndefined H eq_refl eq_refl).
Defined.

(** *** More on query normalization *)

Lemma value_ind_deep (P : value -> Prop) :
  P VUndefined -> P VNull -> (forall b, P (VBool b)) -> (forall n, P (VNum n)) ->
  (forall s, P (VStr s)) ->
  (forall items, Forall P items -> P (VArr items)) ->
  (forall props, Forall (fun kv => P (snd kv)) props -> P (VObj props)) ->
  forall v, P v.
Proof.
  intros Hu Hn Hb Hnum Hs Harr Hobj. fix IH 1.
  intros [ | | b | n | s | items | props];
    [exact Hu | exact Hn | apply Hb | apply Hnum | apply Hs | | ].
  - apply Harr. revert items. fix IHl 1.
    intros [ | x l]; constructor; [apply IH | apply IHl].
  - apply Hobj. revert props. fix IHl 1.
    intros [ | [k x] l]; constructor; [apply IH | apply IHl].
Qed.

Lemma distinct_NoDup (l : list string) : distinct l = true <-> NoDup l.
Proof.
  induction l as [ | k l IH]; simpl.
  - split; [constructor | reflexivity].
  - rewrite andb_true_iff, negb_true_iff, IH. split.
    + intros [Hex Hnd]. constructor; [ | exact Hnd].
      intros Hin. assert (Ht : existsb (String.eqb k) l = true).
      { apply existsb_exists. exists k. split; [exact Hin | apply String.eqb_refl]. }
      congruence.
    + intros Hnd. inversion Hnd as [ | ? ? Hnot Hnd']; subst. split; [ | exact Hnd'].
      destruct (existsb (String.eqb k) l) eqn:E; [ | reflexivity].
      apply existsb_exists in E as [x [Hin Hx]]. apply String.eqb_eq in Hx.
      subst x. contradiction.
Qed.

Lemma In_assign_inv (k a : string) (v b : value) (o : object) :
  NoDup (keys o) -> In (k, v) (assign a b o) ->
  (k, v) = (a, b) \/ (k <> a /\ In (k, v) o).
Proof.
  induction o as [ | [k' v'] o IH]; simpl; intros Hnd Hin.
  - destruct Hin as [Heq | []]. left. now symmetry.
  - inversion Hnd as [ | ? ? Hnot Hnd']; subst.
    destruct (k' =? a) eqn:E.
    + apply String.eqb_eq in E. subst k'. destruct Hin as [Heq | Hin].
      * left. now symmetry.
      * right. split; [ | now right].
        intros ->. apply Hnot. now apply In_keys with v.
    + apply String.eqb_neq in E. destruct Hin as [Heq | Hin].
      * injection Heq as -> ->. right. split; [exact E | now left].
      * destruct (IH Hnd' Hin) as [H | [H1 H2]]; [now left | ].
        right. split; [exact H1 | now right].
Qed.

Lemma In_delete_inv (k a : string) (v : value) (o : object) :
  In (k, v) (delete a o) -> k <> a /\ In (k, v) o.
Proof.
  unfold delete. intros H. apply filter_In in H as [Hin Hk].
  simpl in Hk. apply negb_true_iff, String.eqb_neq in Hk. now split.
Qed.

Lemma assign_same (k : string) (v : value) (o : object) :
  NoDup (keys o) -> In (k, v) o -> assign k v o = o.
Proof.
  induction o as [ | [k' v'] o IH]; simpl; intros Hnd Hin; [destruct Hin | ].
  inversion Hnd as [ | ? ? Hnot Hnd']; subst.
  destruct (k' =? k) eqn:E.
  - apply String.eqb_eq in E. subst k'. destruct Hin as [Heq | Hin].
    + now injection Heq as ->.
    + exfalso. apply Hnot. now apply In_keys with v.
  - apply String.eqb_neq in E. destruct Hin as [Heq | Hin].
    + injection Heq as -> ->. congruence.
    + now rewrite IH.
Qed.

Section CleanFold.
Variable clean : value -> value.

Lemma clean_entry_NoDup (result : object) (entry : string * value) :
  NoDup (keys result) -> NoDup (keys (StripeAdapter.clean_entry clean result entry)).
Proof.
  intros Hnd. destruct entry as [k v]. unfold StripeAdapter.clean_entry.
  destruct (startsWith_dollar k).
  - now apply NoDup_assign, NoDup_delete.
  - now apply NoDup_assign.
Qed.

Lemma clean_fold_NoDup (es result : object) :
  NoDup (keys result) ->
  NoDup (keys (fold_left (StripeAdapter.clean_entry clean) es result)).
Proof.
  revert result. induction es as [ | e es IH]; intros result Hnd; simpl;
    [exact Hnd | ].
  apply IH. now apply clean_entry_NoDup.
Qed.

(** Every entry of the result is the forwarded key of an entry of the
    input with that entry's value cleaned. *)
Lemma clean_fold_provenance (props es result : object) :
  NoDup (keys result) ->
  (forall k v, In (k, v) es -> In (k, v) props) ->
  (forall k v, In (k, v) result ->
     (exists k' v', In (k', v') props /\ k = cleanKey k' /\ v = clean v')
     \/ In k (keys es)) ->
  forall k v, In (k, v) (fold_left (StripeAdapter.clean_entry clean) es result) ->
    exists k' v', In (k', v') props /\ k = cleanKey k' /\ v = clean v'.
Proof.
  revert result. induction es as [ | [k0 v0] es IH]; intros result Hnd Hes Hres k v;
    cbn [fold_left].
  - intros Hin. destruct (Hres k v Hin) as [H | []]. exact H.
  - apply (IH (StripeAdapter.clean_entry clean result (k0, v0))).
    + now apply clean_entry_NoDup.
    + intros k1 v1 H1. apply Hes. now right.
    + clear k v. intros k v Hin.
      assert (Hwritten : exists k' v',
                 In (k', v') props /\ cleanKey k0 = cleanKey k' /\ clean v0 = clean v').
      { exists k0, v0. split; [apply Hes; now left | split; reflexivity]. }
      unfold StripeAdapter.clean_entry in Hin. unfold cleanKey in Hwritten at 1.
      destruct (startsWith_dollar k0) eqn:E.
      * apply In_assign_inv in Hin; [ | now apply NoDup_delete].
        destruct Hin as [Heq | [_ Hin]].
        -- injection Heq as -> ->. now left.
        -- apply In_delete_inv in Hin as [Hne Hin].
           destruct (Hres k v Hin) as [H | [H | H]];
             [now left | simpl in H; congruence | now right].
      * apply In_assign_inv in Hin; [ | exact Hnd].
        destruct Hin as [Heq | [Hne Hin]].
        -- injection Heq as -> ->. now left.
        -- destruct (Hres k v Hin) as [H | [H | H]];
             [now left | simpl in H; congruence | now right].
Qed.

(** Entries that need no cleaning leave the result as it is. *)
Lemma clean_fold_fixed (es result : object) :
  NoDup (keys result) ->
  (forall k v, In (k, v) es ->
     startsWith_dollar k = false /\ clean v = v /\ In (k, v) result) ->
  fold_left (StripeAdapter.clean_entry clean) es result = result.
Proof.
  intros Hnd. induction es as [ | [k v] es IH]; intros Hes; simpl; [reflexivity | ].
  destruct (Hes k v (or_introl eq_refl)) as [Hk [Hv Hin]].
  rewrite Hk, Hv, assign_same by assumption.
  apply IH. intros k' v' H'. apply Hes. now right.
Qed.
End CleanFold.

Lemma cleanQuery_provenance (props out : object) :
  NoDup (keys props) ->
  StripeAdapter.cleanQuery (VObj props) = VObj out ->
  NoDup (keys out)
  /\ forall k v, In (k, v) out ->
       exists k' v', In (k', v') props /\ k = cleanKey k'
                     /\ v = StripeAdapter.cleanQuery v'.
Proof.
  intros Hnd [= <-]. split; [now apply clean_fold_NoDup | ].
  apply clean_fold_provenance; try assumption.
  - auto.
  - intros k v Hin. right. now apply In_keys with v.
Qed.

Lemma well_formed_obj (props : object) :
  well_formed (VObj props) = true
  <-> NoDup (keys props) /\ forall k v, In (k, v) props -> well_formed v = true.
Proof.
  cbn [well_formed]. rewrite andb_true_iff, distinct_NoDup, forallb_forall.
  split; intros [H1 H2]; (split; [exact H1 | ]).
  - intros k v Hin. exact (H2 (k, v) Hin).
  - intros [k v] Hin. exact (H2 k v Hin).
Qed.

Lemma all_keys_obj (P : string -> bool) (props : object) :
  all_keys P (VObj props) = true
  <-> forall k v, In (k, v) props -> P k = true /\ all_keys P v = true.
Proof.
  cbn [all_keys]. rewrite forallb_forall. split.
  - intros H k v Hin. apply andb_true_iff. exact (H (k, v) Hin).
  - intros H [k v] Hin. apply andb_true_iff. exact (H k v Hin).
Qed.

Lemma cleanQuery_keeps_well_formed (q : value) :
  well_formed q = true -> well_formed (StripeAdapter.cleanQuery q) = true.
Proof.
  induction q as [ | | b | n | s | items IH | props IH] using value_ind_deep;
    try (intros _; reflexivity).
  - cbn [well_formed StripeAdapter.cleanQuery]. rewrite !forallb_forall.
    intros Hwf x Hx. apply in_map_iff in Hx as [y [<- Hy]].
    rewrite Forall_forall in IH. apply IH; auto.
  - intros Hwf. apply well_formed_obj in Hwf as [Hnd Hvals].
    destruct (cleanQuery_provenance props _ Hnd eq_refl) as [Hnd' Hprov].
    change (StripeAdapter.cleanQuery (VObj props))
      with (VObj (fold_left (StripeAdapter.clean_entry StripeAdapter.cleanQuery)
                            props props)).
    apply well_formed_obj. split; [exact Hnd' | ].
    intros k v Hin. destruct (Hprov k v Hin) as [k' [v' [Hin' [_ ->]]]].
    pose proof (proj1 (Forall_forall _ _) IH (k', v') Hin') as IHv. cbn [snd] in IHv.
    apply IHv. now apply Hvals with k'.
Qed.

Lemma cleanQuery_strips_dollars (q : value) :
  well_formed q = true -> single_dollar q = true ->
  dollar_free (StripeAdapter.cleanQuery q) = true.
Proof.
  unfold single_dollar, dollar_free.
  induction q as [ | | b | n | s | items IH | props IH] using value_ind_deep;
    try (intros _ _; reflexivity).
  - cbn [well_formed all_keys StripeAdapter.cleanQuery]. rewrite !forallb_forall.
    intros Hwf Hs x Hx. apply in_map_iff in Hx as [y [<- Hy]].
    rewrite Forall_forall in IH. apply IH; auto.
  - intros Hwf Hs. apply well_formed_obj in Hwf as [Hnd Hvals].
    rewrite all_keys_obj in Hs.
    destruct (cleanQuery_provenance props _ Hnd eq_refl) as [_ Hprov].
    change (StripeAdapter.cleanQuery (VObj props))
      with (VObj (fold_left (StripeAdapter.clean_entry StripeAdapter.cleanQuery)
                            props props)).
    apply all_keys_obj. intros k v Hin.
    destruct (Hprov k v Hin) as [k' [v' [Hin' [-> ->]]]].
    destruct (Hs k' v' Hin') as [Hk Hv]. split; [exact Hk | ].
    pose proof (proj1 (Forall_forall _ _) IH (k', v') Hin') as IHv. cbn [snd] in IHv.
    apply IHv; [now apply Hvals with k' | exact Hv].
Qed.

Lemma cleanQuery_fixes_dollar_free (q : value) :
  well_formed q = true -> dollar_free q = true -> StripeAdapter.cleanQuery q = q.
Proof.
  unfold dollar_free.
  induction q as [ | | b | n | s | items IH | props IH] using value_ind_deep;
    try (intros _ _; reflexivity).
  - cbn [well_formed all_keys StripeAdapter.cleanQuery]. rewrite !forallb_forall.
    intros Hwf Hd. f_equal. rewrite <- (map_id items) at 2.
    apply map_ext_in. intros x Hx. rewrite Forall_forall in IH. apply IH; auto.
  - intros Hwf Hd. apply well_formed_obj in Hwf as [Hnd Hvals].
    rewrite all_keys_obj in Hd.
    change (StripeAdapter.cleanQuery (VObj props))
      with (VObj (fold_left (StripeAdapter.clean_entry StripeAdapter.cleanQuery)
                            props props)).
    f_equal. apply clean_fold_fixed; [exact Hnd | ].
    intros k v Hin. destruct (Hd k v Hin) as [Hk Hv].
    split; [now apply negb_true_iff | ]. split; [ | exact Hin].
    pose proof (proj1 (Forall_forall _ _) IH (k, v) Hin) as IHv. cbn [snd] in IHv.
    apply IHv; [now apply Hvals with k | exact Hv].
Qed.

(** X4. [cleanQuery] strips the [$] directives at every depth: for a
    well-formed query in which no key begins with [$$], no key of the
    cleaned query begins with [$], in nested objects and in objects
    inside lists as well. *)
Theorem cleanQuery_dollar_free (q : value) :
  well_formed q = true -> single_dollar q = true ->
  dollar_free (StripeAdapter.cleanQuery q) = true.
Proof. apply cleanQuery_strips_dollars. Qed.

Lemma cleanQuery_dollar_free_witness :
  let q := VObj [("$limit", VNum (of_Z 25));
                 ("created", VObj [("$gt", VNum (of_Z 1))]);
                 ("$or", VArr [VObj [("$in", VArr [VStr "a"])]])] in
  well_formed q = true /\ single_dollar q = true
  /\ dollar_free (StripeAdapter.cleanQuery q) = true.
Proof.
  intros q. split; [reflexivity | ]. split; [reflexivity | ].
  exact (cleanQuery_dollar_free q eq_refl eq_refl).
Defined.

(** X5. [cleanQuery] changes nothing in a well-formed query that has no
    key beginning with [$]: the query is returned as it is, entries in
    the same order. *)
Theorem cleanQuery_unchanged_without_dollars (q : value) :
  well_formed q = true -> dollar_free q = true -> StripeAdapter.cleanQuery q = q.
Proof. apply cleanQuery_fixes_dollar_free. Qed.

Lemma cleanQuery_unchanged_without_dollars_witness :
  let q := VObj [("status", VStr "paid");
                 ("created", VObj [("gt", VNum (of_Z 1))]);
                 ("ids", VArr [VStr "a"; VStr "b"])] in
  well_formed q = true /\ dollar_free q = true /\ StripeAdapter.cleanQuery q = q.
Proof.
  intros q. split; [reflexivity | ]. split; [reflexivity | ].
  exact (cleanQuery_unchanged_without_dollars q eq_refl eq_refl).
Defined.

(** X6. On well-formed queries without [$$]-keys [cleanQuery] is
    idempotent: cleaning a cleaned query changes nothing. *)
Theorem cleanQuery_idempotent (q : value) :
  well_formed q = true -> single_dollar q = true ->
  StripeAdapter.cleanQuery (StripeAdapter.cleanQuery q) = StripeAdapter.cleanQuery q.
Proof.
  intros Hwf Hs. apply cleanQuery_fixes_dollar_free.
  - now apply cleanQuery_keeps_well_formed.
  - now apply cleanQuery_strips_dollars.
Qed.

Lemma cleanQuery_idempotent_witness :
  let q := VObj [("$limit", VNum (of_Z 25)); ("limit", VNum (of_Z 10));
                 ("$or", VArr [VObj [("$gt", VNum (of_Z 1))]])] in
  well_formed q = true /\ single_dollar q = true
  /\ StripeAdapter.cleanQuery (StripeAdapter.cleanQuery q) = StripeAdapter.cleanQuery q.
Proof.
  intros q. split; [reflexivity | ]. split; [reflexivity | ].
  exact (cleanQuery_idempotent q eq_refl eq_refl).
Defined.

(** X7. [cleanQuery] invents nothing: the keys of the cleaned mapping
    are distinct, and each of its entries is the forwarded key of an
    entry of the input (the key itself, or the key without its leading
    [$]) with the cleaned value of that entry. *)
Theorem cleanQuery_entries_forwarded (props out : object) :
  NoDup (keys props) ->
  StripeAdapter.cleanQuery (VObj props) = VObj out ->
  NoDup (keys out)
  /\ forall k v, In (k, v) out ->
       exists k' v',
         In (k', v') props
         /\ (k = k' \/ k' = String dollar k)
         /\ v = StripeAdapter.cleanQuery v'.
Proof.
  intros Hnd Hout.
  destruct (cleanQuery_provenance props out Hnd Hout) as [Hnd' Hprov].
  split; [exact Hnd' | ].
  intros k v Hin. destruct (Hprov k v Hin) as [k' [v' [Hin' [Hk Hv]]]].
  exists k', v'. split; [exact Hin' | ]. split; [ | exact Hv].
  symmetry in Hk. destruct (cleanKey_inv _ _ Hk) as [[_ H] | [_ H]]; auto.
Qed.

Lemma cleanQuery_entries_forwarded_witness :
  let props := [("$$a", VNum (of_Z 1)); ("$a", VNum (of_Z 2))] in
  let out := [("a", VNum (of_Z 2))] in
  NoDup (keys props)
  /\ StripeAdapter.cleanQuery (VObj props) = VObj out
  /\ NoDup (keys out)
  /\ forall k v, In (k, v) out ->
       exists k' v',
         In (k', v') props
         /\ (k = k' \/ k' = String dollar k)
         /\ v = StripeAdapter.cleanQuery v'.
Proof.
  intros props out.
  assert (Hnd : NoDup (keys props)).
  { repeat constructor; simpl; intuition discriminate. }
  split; [exact Hnd | ]. split; [reflexivity | ].
  exact (cleanQuery_entries_forwarded props out Hnd eq_refl).
Defined.

(** *** More on the forwarded query and its pagination *)

Lemma limited_query_limit (props : object) (l : value) :
  NoDup (keys props) ->
  lookup "limit"
    (fold_left (StripeAdapter.clean_entry StripeAdapter.cleanQuery)
               (delete "$limit" (assign "limit" l props))
               (delete "$limit" (assign "limit" l props)))
  = Some (StripeAdapter.cleanQuery l).
Proof.
  intros Hnd. destruct (limited_query props l Hnd) as [Hnd' [Hin' [Hkeys' _]]].
  apply (clean_fold_lookup StripeAdapter.cleanQuery "limit" l); try assumption.
  intros k Hk Hne. destruct (Hkeys' k Hk) as [Hk1 _]. split.
  - intros Hck. destruct (limit_key_sources k Hck); contradiction.
  - intros _. exact Hne.
Qed.

(** X8. The limit that reaches Stripe. Under a policy with numeric
    default and maximum, a query whose [$limit] (or else [limit]) is a
    truthy number [l] is forwarded with a numeric [limit]: [l] itself
    when the call disables pagination or the policy is inactive, and
    otherwise the minimum of [l] and the maximum, so never more than
    the maximum. *)
Theorem filterQuery_forwards_clamped_limit
    (options pg params props : object) (D M l : number) :
  get (VObj options) "paginate" = VObj pg ->
  get (VObj pg) "default" = VNum D ->
  get (VObj pg) "max" = VNum M ->
  get (VObj params) "query" = VObj props ->
  NoDup (keys props) ->
  or_else (get (VObj props) "$limit") (get (VObj props) "limit") = VNum l ->
  truthy (VNum l) = true ->
  exists out m,
    StripeAdapter.filterQuery options params = Some (VObj out)
    /\ lookup "limit" out = Some (VNum m)
    /\ (is_false (get (VObj params) "paginate") = true -> m = l)
    /\ (is_false (get (VObj params) "paginate") = false ->
        truthy (VNum D) || truthy (VNum M) = false -> m = l)
    /\ (is_false (get (VObj params) "paginate") = false ->
        truthy (VNum D) || truthy (VNum M) = true -> is_min m l M).
Proof.
  intros Hpg HD HM Hq Hnd Hl Ht.
  rewrite (filterQuery_unfold options params props Hq Hnd). cbv zeta.
  rewrite Hl, Ht.
  rewrite (getLimit_numeric_policy options pg _ _ D M Hpg HD HM).
  assert (Hnan : is_nan l = false).
  { destruct l; try reflexivity. discriminate. }
  assert (Hlow : lower_operand (VNum l) D = l).
  { unfold lower_operand. now rewrite Hnan. }
  rewrite Hlow.
  destruct (is_false (get (VObj params) "paginate")).
  - exists (fold_left (StripeAdapter.clean_entry StripeAdapter.cleanQuery)
              (delete "$limit" (assign "limit" (VNum l) props))
              (delete "$limit" (assign "limit" (VNum l) props))), l.
    split; [reflexivity | ].
    split; [now apply (limited_query_limit props (VNum l)) | ].
    repeat split; congruence.
  - destruct (truthy (VNum D) || truthy (VNum M)).
    + eexists. eexists. split; [reflexivity | ].
      split; [now apply (limited_query_limit props (VNum _)) | ].
      split; [discriminate | ]. split; [discriminate | ]. intros _ _.
      destruct (is_nan M) eqn:HM'.
      * unfold is_min. rewrite HM', orb_true_r. reflexivity.
      * now apply min_step_is_min.
    + exists (fold_left (StripeAdapter.clean_entry StripeAdapter.cleanQuery)
                (delete "$limit" (assign "limit" (VNum l) props))
                (delete "$limit" (assign "limit" (VNum l) props))), l.
      split; [reflexivity | ].
      split; [now apply (limited_query_limit props (VNum l)) | ].
      repeat split; congruence.
Qed.

Lemma filterQuery_forwards_clamped_limit_witness :
  let options := [("paginate", StripeAdapter.default_paginate)] in
  let props := [("limit", VNum (of_Z 50)); ("$limit", VNum (of_Z 500))] in
  let params := [("query", VObj props)] in
  NoDup (keys props)
  /\ exists out m,
       StripeAdapter.filterQuery options params = Some (VObj out)
       /\ lookup "limit" out = Some (VNum m)
       /\ (is_false (get (VObj params) "paginate") = true -> m = of_Z 500)
       /\ (is_false (get (VObj params) "paginate") = false ->
           truthy (VNum (of_Z 10)) || truthy (VNum (of_Z 100)) = false ->
           m = of_Z 500)
       /\ (is_false (get (VObj params) "paginate") = false ->
           truthy (VNum (of_Z 10)) || truthy (VNum (of_Z 100)) = true ->
           is_min m (of_Z 500) (of_Z 100)).
Proof.
  intros options props params.
  assert (Hnd : NoDup (keys props)).
  { repeat constructor; simpl; intuition discriminate. }
  split; [exact Hnd | ].
  exact (filterQuery_forwards_clamped_limit options
           [("default", VNum (of_Z 10)); ("max", VNum (of_Z 100))]
           params props (of_Z 10) (of_Z 100) (of_Z 500)
           eq_refl eq_refl eq_refl eq_refl Hnd eq_refl eq_refl).
Defined.

(** X9. Without a query there is nothing to forward: when [params.query]
    is missing, or has no own enumerable property ([null], a number, a
    boolean, an empty object), [filterQuery] returns the empty object,
    whatever the policy; and [filterParams] without arguments returns
    an empty query, no [stripe] entry and pagination enabled. *)
Theorem filterQuery_without_query (options params : object) :
  entries (get (VObj params) "query") = [] ->
  StripeAdapter.filterQuery options params = Some (VObj [])
  /\ StripeAdapter.filterParams options None
     = Some [("query", VObj []); ("stripe", VUndefined); ("paginate", VBool true)].
Proof.
  intros He. unfold StripeAdapter.filterParams, StripeAdapter.filterQuery,
    Object_assign_empty.
  rewrite He. split; reflexivity.
Qed.

Lemma filterQuery_without_query_witness :
  let params := [("paginate", VBool false)] in
  entries (get (VObj params) "query") = []
  /\ StripeAdapter.filterQuery [("paginate", StripeAdapter.default_paginate)] params
     = Some (VObj []).
Proof.
  intros params. split; [reflexivity | ].
  exact (proj1 (filterQuery_without_query
                  [("paginate", StripeAdapter.default_paginate)] params eq_refl)).
Defined.

(** X10. Only the literal [false] disables pagination. The [paginate]
    entry that [filterParams] returns is the boolean
    [params.paginate !== false]; so with any other value of
    [params.paginate], missing, [0] and [null] included,
    [handlePaginate] on the filtered params passes the SDK call
    through, and with [false] it behaves as on [false]. The [stripe]
    entry is passed on and the query is that of [filterQuery]. *)
Theorem filterParams_paginate_flag (options params filtered : object)
    (sm : StripeAdapter.stripeMethod) :
  StripeAdapter.filterParams options (Some params) = Some filtered ->
  get (VObj filtered) "paginate"
  = VBool (negb (is_false (get (VObj params) "paginate")))
  /\ get (VObj filtered) "stripe" = get (VObj params) "stripe"
  /\ StripeAdapter.filterQuery options params = Some (get (VObj filtered) "query")
  /\ (get (VObj params) "paginate" <> VBool false ->
      StripeAdapter.handlePaginate (get (VObj filtered) "paginate") sm
      = StripeAdapter.settles sm)
  /\ (get (VObj params) "paginate" = VBool false ->
      StripeAdapter.handlePaginate (get (VObj filtered) "paginate") sm
      = StripeAdapter.handlePaginate (VBool false) sm).
Proof.
  unfold StripeAdapter.filterParams.
  destruct (StripeAdapter.filterQuery options params) as [query | ]; [ | discriminate].
  remember (get (VObj params) "paginate") as flag eqn:Hflag.
  remember (get (VObj params) "stripe") as handle eqn:Hhandle.
  intros [= <-]. split; [reflexivity | ]. split; [reflexivity | ].
  split; [reflexivity | ].
  change (get (VObj [("query", query); ("stripe", handle);
                     ("paginate", VBool (negb (is_false flag)))]) "paginate")
    with (VBool (negb (is_false flag))).
  split.
  - intros Hne.
    assert (Hf : is_false flag = false).
    { destruct flag as [ | | [ | ] | | | | ]; try reflexivity. now elim Hne. }
    rewrite Hf. reflexivity.
  - intros ->. reflexivity.
Qed.

Lemma filterParams_paginate_flag_witness :
  let options := [("paginate", StripeAdapter.default_paginate)] in
  let params := [("query", VObj [("status", VStr "paid")]); ("paginate", VNum (of_Z 0))] in
  let sm := StripeAdapter.StripeMethod (Fulfilled (VObj [("data", VArr [])])) None in
  exists filtered,
    StripeAdapter.filterParams options (Some params) = Some filtered
    /\ get (VObj params) "paginate" <> VBool false
    /\ StripeAdapter.handlePaginate (get (VObj filtered) "paginate") sm
       = StripeAdapter.settles sm.
Proof.
  intros options params sm.
  exists [("query", VObj [("status", VStr "paid")]); ("stripe", VUndefined);
          ("paginate", VBool true)].
  assert (Hne : get (VObj params) "paginate" <> VBool false)
    by (vm_compute; discriminate).
  split; [reflexivity | ]. split; [exact Hne | ].
  exact (proj1 (proj2 (proj2 (proj2
           (filterParams_paginate_flag options params _ sm eq_refl)))) Hne).
Defined.

(** X11. [handlePaginate] returns no partial list. With pagination
    disabled and page iteration available, the promise is fulfilled
    only when the iteration has finished, and then with every delivered
    item; when the iteration is rejected the promise is rejected with
    the same error, and while it is pending the promise is pending. *)
Theorem handlePaginate_no_partial_results (paginate : value)
    (sm : StripeAdapter.stripeMethod) (each : StripeAdapter.pager) :
  truthy paginate = false ->
  StripeAdapter.autoPagingEach sm = Some each ->
  (forall v,
      StripeAdapter.handlePaginate paginate sm = Fulfilled v ->
      (exists done, StripeAdapter.finished each = Fulfilled done)
      /\ v = VArr (StripeAdapter.delivered each))
  /\ (forall e,
      StripeAdapter.finished each = Rejected e ->
      StripeAdapter.handlePaginate paginate sm = Rejected e)
  /\ (StripeAdapter.finished each = Pending ->
      StripeAdapter.handlePaginate paginate sm = Pending).
Proof.
  intros Hp He. unfold StripeAdapter.handlePaginate. rewrite Hp, He, fold_push.
  split; [ | split].
  - intros v. destruct (StripeAdapter.finished each) as [done | e | ];
      try discriminate.
    intros [= <-]. split; [now exists done | reflexivity].
  - intros e ->. reflexivity.
  - intros ->. reflexivity.
Qed.

Lemma handlePaginate_no_partial_results_witness :
  let failure := Raw (VObj [("type", VStr "StripeConnectionError")]) in
  let each := StripeAdapter.Pager [VObj [("id", VStr "tr_1")]] (Rejected failure) in
  let sm := StripeAdapter.StripeMethod Pending (Some each) in
  truthy (VBool false) = false
  /\ StripeAdapter.autoPagingEach sm = Some each
  /\ StripeAdapter.handlePaginate (VBool false) sm = Rejected failure.
Proof.
  intros failure each sm. split; [reflexivity | ]. split; [reflexivity | ].
  exact (proj1 (proj2 (handlePaginate_no_partial_results (VBool false) sm each
                         eq_refl eq_refl)) failure eq_refl).
Defined.

(** *** More on errors and dispatch *)

Lemma handleError_rejects (error : thrown) :
  (exists x, StripeAdapter.handleError error = Throws x)
  \/ (exists reason, StripeAdapter.handleError error = Returns (Rejected reason)).
Proof.
  unfold StripeAdapter.handleError. destruct (type_of error) as [type | x].
  - right. eexists. reflexivity.
  - left. eexists. reflexivity.
Qed.

(** X12. [handleError] loses nothing and never resolves: whenever it
    returns, the promise is rejected, and the reason is the original
    error itself or a Feathers error that carries the original error as
    its data. *)
Theorem handleError_keeps_error (error : thrown) (p : promise value) :
  StripeAdapter.handleError error = Returns p ->
  exists reason,
    p = Rejected reason
    /\ (reason = error \/ exists c message, reason = Feathers c message error).
Proof.
  unfold StripeAdapter.handleError. destruct (type_of error) as [type | x];
    [ | discriminate].
  intros [= <-]. eexists. split; [reflexivity | ].
  destruct (truthy type); [ | now left]. right.
  repeat match goal with
         | |- context [if ?c then _ else _] => destruct c
         end; eexists; eexists; reflexivity.
Qed.

Lemma handleError_keeps_error_witness :
  let error := Raw (VObj [("type", VStr "StripeCardError"); ("code", VStr "card_declined")]) in
  let p : promise value := Rejected (Feathers PaymentError error error) in
  StripeAdapter.handleError error = Returns p
  /\ exists reason,
       p = Rejected reason
       /\ (reason = error \/ exists c message, reason = Feathers c message error).
Proof.
  intros error p. split; [reflexivity | ].
  exact (handleError_keeps_error error p eq_refl).
Defined.

(** X13. The dispatching verbs [$find], [$get], [$create], [$update] and
    [$remove]. Without the internal method the verb throws
    not-implemented and issues no request. With it, the verb issues the
    requests of the method and no other, a synchronous throw of the
    method propagates, and the promise of the method keeps its kind: a
    fulfilled promise stays fulfilled with the same value, a pending one
    stays pending, and a rejected one stays rejected (with the reason
    [handleError] gives, or its [TypeError]). *)
Theorem dispatch_keeps_settlement (message : string) (args : list value)
    (trace : list call) :
  StripeAdapter.dispatch None message args trace
  = (Throws (Feathers NotImplemented (Raw (VStr message)) (Raw VUndefined)), trace)
  /\ forall f,
       snd (StripeAdapter.dispatch (Some f) message args trace) = snd (f args trace)
       /\ (forall x, fst (f args trace) = Throws x ->
             fst (StripeAdapter.dispatch (Some f) message args trace) = Throws x)
       /\ (forall v, fst (f args trace) = Returns (Fulfilled v) ->
             fst (StripeAdapter.dispatch (Some f) message args trace)
             = Returns (Fulfilled v))
       /\ (fst (f args trace) = Returns Pending ->
             fst (StripeAdapter.dispatch (Some f) message args trace)
             = Returns Pending)
       /\ (forall e, fst (f args trace) = Returns (Rejected e) ->
             exists reason,
               fst (StripeAdapter.dispatch (Some f) message args trace)
               = Returns (Rejected reason)).
Proof.
  split; [reflexivity | ]. intros f.
  unfold StripeAdapter.dispatch, StripeAdapter.guarded, bind, ret.
  destruct (f args trace) as [r trace']. cbn [fst snd].
  split; [reflexivity | ]. split; [intros x ->; reflexivity | ].
  split; [intros v ->; reflexivity | ]. split; [intros ->; reflexivity | ].
  intros e ->. cbn [catch].
  destruct (handleError_rejects e) as [[x ->] | [reason ->]]; eexists; reflexivity.
Qed.

Lemma dispatch_keeps_settlement_witness :
  let declined := Raw (VObj [("type", VStr "StripeCardError")]) in
  let _get : StripeAdapter.internal :=
    fun args =>
      stripe_call (fun _ _ => Rejected declined) (fun e => Returns (Rejected e))
                  "prices" "retrieve" [arg 0 args] in
  let this :=
    StripeAdapter.Instance [] (StripeAdapter.Stripe (VStr "sk_test"))
      None (Some _get) None None None None in
  fst (_get [VStr "price_1"] []) = Returns (Rejected declined)
  /\ exists reason,
       fst (StripeAdapter.dollar_get this [VStr "price_1"] [])
       = Returns (Rejected reason).
Proof.
  intros declined _get this. split; [reflexivity | ].
  exact (proj2 (proj2 (proj2 (proj2
           (proj2 (dispatch_keeps_settlement "Get method not implemented"
                     [VStr "price_1"] []) _get))))
           declined eq_refl).
Defined.

(** X14. The verbs of [BaseService] call the internal method directly:
    its outcome is returned as it is, without [handleError], and a
    missing method is a [TypeError] with no request issued. In
    particular [patch] has no fallback: on a service that defines
    [_update] but no [_patch], [patch] throws where [$patch] runs
    [_update]. *)
Theorem base_patch_has_no_fallback (this : StripeAdapter.instance)
    (id data params : value) (trace : list call) :
  (forall f, StripeAdapter._patch this = Some f ->
     BaseService.patch this id data params trace = f [id; data; params] trace)
  /\ (StripeAdapter._patch this = None ->
      BaseService.patch this id data params trace = (Throws TypeError, trace))
  /\ (forall f, StripeAdapter._patch this = None ->
      StripeAdapter._update this = Some f ->
      BaseService.patch this id data params trace = (Throws TypeError, trace)
      /\ StripeAdapter.dollar_patch this [id; data; params] trace
         = StripeAdapter.guarded f [id; data; params] trace
      /\ BaseService.update this id data params trace = f [id; data; params] trace).
Proof.
  unfold BaseService.patch, BaseService.update, BaseService.invoke,
    StripeAdapter.dollar_patch.
  split; [intros f ->; reflexivity | ]. split; [intros ->; reflexivity | ].
  intros f -> ->. repeat split.
Qed.

Lemma base_patch_has_no_fallback_witness :
  let sdk : SDK := fun _ _ => Fulfilled (VObj [("id", VStr "price_1")]) in
  let _update : StripeAdapter.internal :=
    fun args =>
      stripe_call sdk StripeAdapter.handleError "prices" "update"
                  [arg 0 args; arg 1 args] in
  let this :=
    StripeAdapter.Instance [] (StripeAdapter.Stripe (VStr "sk_test"))
      None None None (Some _update) None None in
  BaseService.patch this (VStr "price_1") (VObj []) VUndefined []
  = (Throws TypeError, [])
  /\ fst (StripeAdapter.dollar_patch this [VStr "price_1"; VObj []; VUndefined] [])
     = Returns (Fulfilled (VObj [("id", VStr "price_1")])).
Proof.
  intros sdk _update this.
  split; [ | reflexivity].
  exact (proj1 (proj2 (base_patch_has_no_fallback this (VStr "price_1") (VObj [])
                         VUndefined [])) eq_refl).
Defined.

(** *** More on the resource services *)

(** X16. Patching an order without a payload fails before anything is
    sent: when [data] is [undefined] or [null], [patch] throws a
    [TypeError] and issues neither a pay nor an update request. The
    patch of a transfer has no such test: without a payload it issues
    the update request with [undefined] data. *)
Theorem patch_without_payload (sdk : SDK)
    (errorHandler : thrown -> completion (promise value))
    (id data : value) (trace : list call) :
  nullish data = true ->
  Orders.patch sdk errorHandler id data trace = (Throws TypeError, trace)
  /\ snd (Transfers.patch sdk errorHandler [id] trace)
     = (trace ++ [Call "transfers" "update" [id; VUndefined]])%list.
Proof.
  intros Hd. unfold Orders.patch. rewrite Hd. split; reflexivity.
Qed.

Lemma patch_without_payload_witness :
  nullish VNull = true
  /\ Orders.patch (fun _ _ => Pending) StripeAdapter.handleError (VStr "or_1") VNull []
     = (Throws TypeError, []).
Proof.
  split; [reflexivity | ].
  exact (proj1 (patch_without_payload (fun _ _ => Pending) StripeAdapter.handleError
                  (VStr "or_1") VNull [] eq_refl)).
Defined.

(** *** More on construction *)

Lemma fold_assign_NoDup (l acc : object) :
  NoDup (keys acc) ->
  NoDup (keys (fold_left (fun target kv => assign (fst kv) (snd kv) target) l acc)).
Proof.
  revert acc. induction l as [ | [k v] l IH]; intros acc Hacc; simpl; [exact Hacc | ].
  apply IH. now apply NoDup_assign.
Qed.

Lemma spread_options_NoDup (options : value) :
  NoDup (keys (StripeAdapter.spread_options options)).
Proof.
  unfold StripeAdapter.spread_options. apply fold_assign_NoDup.
  repeat constructor. simpl. tauto.
Qed.

Lemma spread_options_lookup (props : object) (k : string) :
  NoDup (keys props) ->
  lookup k (StripeAdapter.spread_options (VObj props))
  = match lookup k props with
    | Some x => Some x
    | None => lookup k [("paginate", StripeAdapter.default_paginate)]
    end.
Proof.
  intros Hnd. unfold StripeAdapter.spread_options. simpl entries.
  now apply lookup_fold_assign.
Qed.

(** An option of the spread options is an option of the instance. *)
Lemma AdapterBase_options_keeps (opts : object) (k : string) (x : value) :
  NoDup (keys opts) -> lookup k opts = Some x ->
  get (VObj (StripeAdapter.AdapterBase_options opts)) k = x.
Proof.
  intros Hnd Hk. unfold StripeAdapter.AdapterBase_options, get.
  rewrite lookup_fold_assign by exact Hnd. now rewrite Hk.
Qed.

Lemma constructed_paginate (props : object) :
  NoDup (keys props) ->
  get (VObj (StripeAdapter.AdapterBase_options
               (StripeAdapter.spread_options (VObj props)))) "paginate"
  = match lookup "paginate" props with
    | Some x => x
    | None => StripeAdapter.default_paginate
    end.
Proof.
  intros Hnd. apply AdapterBase_options_keeps; [apply spread_options_NoDup | ].
  rewrite spread_options_lookup by exact Hnd.
  destruct (lookup "paginate" props); reflexivity.
Qed.

(** X17. What the adapter's constructor builds. Given options with a
    truthy [secretKey] or [stripe], it returns an instance and issues
    no request; every option given is an option of the instance, with
    the value given; its [paginate] option is the one given, or
    [{ default: 10, max: 100 }] when none is given; its client is the
    [stripe] option whenever that is truthy, even beside a [secretKey],
    and is built from the [secretKey] otherwise. *)
Theorem constructor_keeps_options (ms : StripeAdapter.methods) (props : object)
    (trace : list call) :
  NoDup (keys props) ->
  truthy (get (VObj props) "secretKey") || truthy (get (VObj props) "stripe") = true ->
  exists this,
    StripeAdapter.constructor ms (VObj props) trace = (Returns this, trace)
    /\ (forall k, In k (keys props) ->
          get (VObj (StripeAdapter.options this)) k = get (VObj props) k)
    /\ get (VObj (StripeAdapter.options this)) "paginate"
       = match lookup "paginate" props with
         | Some x => x
         | None => StripeAdapter.default_paginate
         end
    /\ StripeAdapter.stripe this
       = (if truthy (get (VObj props) "stripe")
          then StripeAdapter.Given (get (VObj props) "stripe")
          else StripeAdapter.Stripe (get (VObj props) "secretKey"))
    /\ StripeAdapter._update this = StripeAdapter.m_update ms
    /\ StripeAdapter._patch this = StripeAdapter.m_patch ms.
Proof.
  intros Hnd Hcred. unfold StripeAdapter.constructor, ret.
  rewrite !spread_options_get by (exact Hnd || discriminate).
  rewrite <- negb_orb, Hcred. cbn [negb].
  eexists. split; [reflexivity | ]. cbn [StripeAdapter.options StripeAdapter.stripe
    StripeAdapter._update StripeAdapter._patch].
  split.
  { intros k Hk. destruct (lookup k props) as [x | ] eqn:Hx;
      [ | now apply lookup_None in Hx].
    unfold get at 2. rewrite Hx.
    apply AdapterBase_options_keeps; [apply spread_options_NoDup | ].
    rewrite spread_options_lookup by exact Hnd. now rewrite Hx. }
  split; [now apply constructed_paginate | ].
  repeat split.
Qed.

Lemma constructor_keeps_options_witness :
  let ms := StripeAdapter.Methods None None None None None None in
  let props := [("secretKey", VStr "sk_test"); ("stripe", VObj [("transfers", VObj [])])] in
  NoDup (keys props)
  /\ exists this,
       StripeAdapter.constructor ms (VObj props) [] = (Returns this, [])
       /\ get (VObj (StripeAdapter.options this)) "paginate"
          = StripeAdapter.default_paginate
       /\ StripeAdapter.stripe this
          = StripeAdapter.Given (VObj [("transfers", VObj [])]).
Proof.
  intros ms props.
  assert (Hnd : NoDup (keys props)).
  { repeat constructor; simpl; intuition discriminate. }
  split; [exact Hnd | ].
  destruct (constructor_keeps_options ms props [] Hnd eq_refl)
    as [this [Hthis [_ [Hpg [Hstripe _]]]]].
  exists this. split; [exact Hthis | ]. split; [exact Hpg | exact Hstripe].
Defined.

(** X18. An adapter constructed without a [paginate] option clamps at
    Stripe's 100: [getLimit] on its options returns the requested limit
    unchanged when the call disables pagination, and otherwise the
    minimum of 100 and the requested limit (10 when no number is
    requested). Constructed with [paginate: false], it returns every
    requested limit unchanged. *)
Theorem constructed_adapter_clamps (ms : StripeAdapter.methods) (props : object)
    (trace trace' : list call) (this : StripeAdapter.instance) (L p : value) :
  NoDup (keys props) ->
  StripeAdapter.constructor ms (VObj props) trace = (Returns this, trace') ->
  (~ In "paginate" (keys props) ->
   exists r,
     StripeAdapter.getLimit (StripeAdapter.options this) L p = Some r
     /\ (is_false p = true -> r = L)
     /\ (is_false p = false ->
         exists m, r = VNum m /\ is_min m (lower_operand L (of_Z 10)) (of_Z 100)))
  /\ (lookup "paginate" props = Some (VBool false) ->
      StripeAdapter.getLimit (StripeAdapter.options this) L p = Some L).
Proof.
  intros Hnd Hc. unfold StripeAdapter.constructor, ret in Hc.
  destruct (negb (truthy (get (VObj (StripeAdapter.spread_options (VObj props)))
                              "secretKey"))
            && negb (truthy (get (VObj (StripeAdapter.spread_options (VObj props)))
                                 "stripe"))); [discriminate | ].
  injection Hc as <- _. cbn [StripeAdapter.options].
  pose proof (constructed_paginate props Hnd) as Hpg.
  split.
  - intros Hno. apply lookup_None in Hno. rewrite Hno in Hpg.
    rewrite (getLimit_numeric_policy _ _ L p (of_Z 10) (of_Z 100) Hpg eq_refl eq_refl).
    destruct (is_false p).
    + exists L. split; [reflexivity | ]. split; [reflexivity | discriminate].
    + change (truthy (VNum (of_Z 10)) || truthy (VNum (of_Z 100))) with true.
      change (is_nan (of_Z 100)) with false. cbv iota.
      eexists. split; [reflexivity | ]. split; [discriminate | ]. intros _.
      eexists. split; [reflexivity | ].
      apply min_step_is_min; [apply lower_operand_not_nan | reflexivity].
  - intros Hoff. rewrite Hoff in Hpg. unfold StripeAdapter.getLimit.
    rewrite Hpg. cbn [truthy andb]. destruct (is_false p); reflexivity.
Qed.

Lemma constructed_adapter_clamps_witness :
  let ms := StripeAdapter.Methods None None None None None None in
  let props := [("secretKey", VStr "sk_test")] in
  NoDup (keys props)
  /\ ~ In "paginate" (keys props)
  /\ exists this r,
       StripeAdapter.constructor ms (VObj props) [] = (Returns this, [])
       /\ StripeAdapter.getLimit (StripeAdapter.options this) (VNum (of_Z 500)) VUndefined
          = Some r
       /\ (is_false VUndefined = false ->
           exists m, r = VNum m
                     /\ is_min m (lower_operand (VNum (of_Z 500)) (of_Z 10)) (of_Z 100)).
Proof.
  intros ms props.
  assert (Hnd : NoDup (keys props)).
  { repeat constructor; simpl; intuition discriminate. }
  assert (Hno : ~ In "paginate" (keys props)).
  { simpl. intuition discriminate. }
  split; [exact Hnd | ]. split; [exact Hno | ].
  assert (Hbuilt : exists this,
             StripeAdapter.constructor ms (VObj props) [] = (Returns this, [])).
  { eexists. reflexivity. }
  destruct Hbuilt as [this Hthis]. exists this.
  destruct (proj1 (constructed_adapter_clamps ms props [] [] this (VNum (of_Z 500))
                     VUndefined Hnd Hthis) Hno) as [r [Hr [_ Hm]]].
  exists r. split; [exact Hthis | ]. split; [exact Hr | exact Hm].
Defined.

(** X19. What the constructor of the transfer and order services
    builds: with a truthy [secretKey] it returns, without a request, an
    instance whose client is built from that key and whose [paginate]
    is the empty object, whatever [paginate] option was passed. *)
Theorem service_constructor_result (options : value) (trace : list call) :
  truthy (get options "secretKey") = true ->
  Service.constructor options trace
  = (Returns (Service.Instance (StripeAdapter.Stripe (get options "secretKey"))
                               (VObj [])),
     trace).
Proof.
  intros Hkey. unfold Service.constructor.
  destruct options as [ | | b | n | s | items | props]; try discriminate.
  cbn [nullish]. rewrite Hkey. reflexivity.
Qed.

Lemma service_constructor_result_witness :
  let options := VObj [("secretKey", VStr "sk_test");
                       ("paginate", VObj [("default", VNum (of_Z 5))])] in
  truthy (get options "secretKey") = true
  /\ Service.constructor options []
     = (Returns (Service.Instance (StripeAdapter.Stripe (VStr "sk_test")) (VObj [])), []).
Proof.
  intros options. split; [reflexivity | ].
  exact (service_constructor_result options [] eq_refl).
Defined.

(** *** The forwarded query carries no directive *)

Lemma getLimit_result (options : object) (limit p r : value) :
  StripeAdapter.getLimit options limit p = Some r ->
  r = limit \/ exists n, r = VNum n.
Proof.
  unfold StripeAdapter.getLimit. destruct (is_false p); [intros [= <-]; now left | ].
  match goal with |- context [if ?c then _ else _] => destruct c end;
    [ | intros [= <-]; now left].
  match goal with |- context [Math_min ?l] => destruct (Math_min l) as [m | ] end;
    [ | discriminate].
  intros [= <-]. right. now exists m.
Qed.

Lemma get_in_or_undefined (props : object) (k : string) :
  get (VObj props) k = VUndefined \/ In (k, get (VObj props) k) props.
Proof.
  unfold get. destruct (lookup k props) as [x | ] eqn:E; [ | now left].
  right. now apply lookup_Some_In.
Qed.

Lemma limited_query_entries (props : object) (l : value) (k : string) (v : value) :
  NoDup (keys props) ->
  In (k, v) (delete "$limit" (assign "limit" l props)) ->
  (k, v) = ("limit", l) \/ In (k, v) props.
Proof.
  intros Hnd Hin. apply In_delete_inv in Hin as [_ Hin].
  apply In_assign_inv in Hin; [ | exact Hnd].
  destruct Hin as [H | [_ H]]; [now left | now right].
Qed.

(** X20. The query [filterQuery] forwards carries no directive: for a
    well-formed query in which no key begins with [$$], no key of the
    forwarded query begins with [$], at any depth, and the forwarded
    query is well formed. *)
Theorem filterQuery_dollar_free (options params props : object) (out : value) :
  get (VObj params) "query" = VObj props ->
  well_formed (VObj props) = true ->
  single_dollar (VObj props) = true ->
  StripeAdapter.filterQuery options params = Some out ->
  dollar_free out = true /\ well_formed out = true.
Proof.
  intros Hq Hwf Hs.
  assert (Hgoal : forall q, well_formed q = true -> single_dollar q = true ->
            dollar_free (StripeAdapter.cleanQuery q) = true
            /\ well_formed (StripeAdapter.cleanQuery q) = true).
  { intros q H1 H2. split;
      [now apply cleanQuery_strips_dollars | now apply cleanQuery_keeps_well_formed]. }
  pose proof Hwf as Hwf'. apply well_formed_obj in Hwf' as [Hnd Hvals].
  pose proof Hs as Hs'. unfold single_dollar in Hs'. rewrite all_keys_obj in Hs'.
  rewrite (filterQuery_unfold options params props Hq Hnd). cbv zeta.
  set (limit := or_else (get (VObj props) "$limit") (get (VObj props) "limit")).
  assert (Hlimit : well_formed limit = true /\ single_dollar limit = true).
  { assert (Hget : forall k, well_formed (get (VObj props) k) = true
                             /\ single_dollar (get (VObj props) k) = true).
    { intros k. destruct (get_in_or_undefined props k) as [-> | Hin];
        [split; reflexivity | ].
      split; [now apply Hvals with k | now apply (Hs' k)]. }
    unfold limit, or_else. destruct (truthy (get (VObj props) "$limit")); apply Hget. }
  destruct (truthy limit); [ | intros [= <-]; now apply (Hgoal (VObj props))].
  destruct (StripeAdapter.getLimit options limit (get (VObj params) "paginate"))
    as [l | ] eqn:Hl; [ | discriminate].
  intros [= <-].
  assert (Hlv : well_formed l = true /\ single_dollar l = true).
  { destruct (getLimit_result _ _ _ _ Hl) as [-> | [n ->]];
      [exact Hlimit | split; reflexivity]. }
  destruct (limited_query props l Hnd) as [Hnd' _].
  apply (Hgoal (VObj (delete "$limit" (assign "limit" l props)))).
  - apply well_formed_obj. split; [exact Hnd' | ].
    intros k v Hin. destruct (limited_query_entries props l k v Hnd Hin) as [H | H].
    + injection H as -> ->. apply Hlv.
    + now apply Hvals with k.
  - unfold single_dollar. apply all_keys_obj.
    intros k v Hin. destruct (limited_query_entries props l k v Hnd Hin) as [H | H].
    + injection H as -> ->. split; [reflexivity | apply Hlv].
    + now apply Hs'.
Qed.

Lemma filterQuery_dollar_free_witness :
  let options := [("paginate", StripeAdapter.default_paginate)] in
  let props := [("$limit", VNum (of_Z 500));
                ("created", VObj [("$gt", VNum (of_Z 1))])] in
  let params := [("query", VObj props)] in
  let out := VObj [("created", VObj [("gt", VNum (of_Z 1))]);
                   ("limit", VNum (of_Z 100))] in
  StripeAdapter.filterQuery options params = Some out
  /\ dollar_free out = true /\ well_formed out = true.
Proof.
  intros options props params out. split; [reflexivity | ].
  exact (filterQuery_dollar_free options params props out
           eq_refl eq_refl eq_refl eq_refl).
Defined.
